(** * Mileage dashboard API: a shallow embedding of [api/index.py]

    The service loads a city/traffic-score table and a pickled model
    artifact, and answers three routes: [GET /api/cities],
    [GET /api/metrics] and [POST /api/predict].

    Conventions of the embedding
    - Python [str] is [string], holding the UTF-8 bytes of the text.
      [PyStr] has the methods [strip], [lower] and [title] in full, by
      code point, and [Full] the city table and the lookup written with
      them.  [Text] has the same methods on ASCII text, where they act
      byte by byte, and the table, the lookup and the handlers written
      with those; the two agree on ASCII text.
    - Python [float] and [numpy.float64] are IEEE-754 binary64 values,
      modelled with the standard library's [spec_float] at precision 53
      and maximal exponent 1024.
    - Lookup tables ([city_map], [ml_models], [metrics_data]) are finite
      maps; the row literal handed to [pandas.DataFrame], whose key order
      becomes the column order, is an association list.
    - Code that can raise returns [option]; [None] is the exception. *)

From Stdlib Require Import ZArith NArith Ascii String List SpecFloat.
From stdpp Require Import base option list gmap strings sorting.

Local Open Scope Z_scope.
Set Warnings "-register-all,-clear-no-such-hyp".

(** ** Text *)

Module Text.

Definition code (c : ascii) : N := N_of_ascii c.

(** [str.isspace] on the ASCII range: TAB, LF, VT, FF, CR, the four
    separators FS, GS, RS, US, and the space. *)
Definition isspace (c : ascii) : bool :=
  let n := code c in
  ((9 <=? n) && (n <=? 13) || (28 <=? n) && (n <=? 32))%N.

Definition isupper (c : ascii) : bool :=
  let n := code c in ((65 <=? n) && (n <=? 90))%N.

Definition islower (c : ascii) : bool :=
  let n := code c in ((97 <=? n) && (n <=? 122))%N.

Definition iscased (c : ascii) : bool := isupper c || islower c.

Definition lower_char (c : ascii) : ascii :=
  if isupper c then ascii_of_N (code c + 32) else c.

Definition upper_char (c : ascii) : ascii :=
  if islower c then ascii_of_N (code c - 32) else c.

(** [str.lower] *)
Fixpoint lower (s : string) : string :=
  match s with
  | EmptyString => EmptyString
  | String c s' => String (lower_char c) (lower s')
  end.

(** [str.lstrip] with no argument *)
Fixpoint lstrip (s : string) : string :=
  match s with
  | EmptyString => EmptyString
  | String c s' => if isspace c then lstrip s' else s
  end.

(** [str.rstrip] with no argument *)
Fixpoint rstrip (s : string) : string :=
  match s with
  | EmptyString => EmptyString
  | String c s' =>
      match rstrip s' with
      | EmptyString => if isspace c then EmptyString else String c EmptyString
      | t => String c t
      end
  end.

(** [str.strip] with no argument *)
Definition strip (s : string) : string := rstrip (lstrip s).

(** [str.title]: a character that follows a cased character is
    lowercased, any other character is titlecased (uppercased, on
    ASCII). *)
Fixpoint title_from (previous_is_cased : bool) (s : string) : string :=
  match s with
  | EmptyString => EmptyString
  | String c s' =>
      String (if previous_is_cased then lower_char c else upper_char c)
             (title_from (iscased c) s')
  end.

Definition title (s : string) : string := title_from false s.

(** A string made of whitespace only *)
Fixpoint all_space (s : string) : bool :=
  match s with
  | EmptyString => true
  | String c s' => isspace c && all_space s'
  end.

(** [str.isascii] *)
Fixpoint is_ascii (s : string) : bool :=
  match s with
  | EmptyString => true
  | String c s' => (code c <? 128)%N && is_ascii s'
  end.

End Text.

(** ** City score table *)

(** A numeric cell of a data frame: an [int64] or a [float64] value. *)
Inductive number :=
  | NInt (z : Z)
  | NFloat (f : spec_float).

(** One row of [city_df] as [iterrows] yields it.  [CITY] is a text
    column: a cell holds a string or is missing (pandas stores NaN
    there). *)
Record Row := {
  CITY : option string;
  TRAFFIC_SCORE : number
}.

(** [str(row["CITY"])] *)
Definition py_str (c : option string) : string :=
  match c with
  | Some s => s
  | None => "nan"
  end.

(** [int(x)] for a numeric cell: the value itself for an integer,
    truncation toward zero for a finite float, an exception for NaN
    ([ValueError]) and the infinities ([OverflowError]). *)
Definition py_int (x : number) : option Z :=
  match x with
  | NInt z => Some z
  | NFloat (S754_zero _) => Some 0
  | NFloat (S754_finite s m e) =>
      let a := match e with
               | Zneg p => Z.shiftr (Zpos m) (Zpos p)
               | _ => Z.shiftl (Zpos m) e
               end in
      Some (if s then - a else a)
  | NFloat _ => None
  end.

Definition normalize (s : string) : string := Text.lower (Text.strip s).

Definition row_key (r : Row) : string := normalize (py_str (CITY r)).

(** The dictionary comprehension that builds [city_map]: rows are visited
    in order and each one assigns its key, so a later row overwrites an
    earlier one.  A score that [int] refuses aborts the import. *)
Definition city_map_step (acc : option (gmap string Z)) (r : Row)
  : option (gmap string Z) :=
  m ← acc;
  v ← py_int (TRAFFIC_SCORE r);
  Some (<[row_key r := v]> m).

Definition city_map (city_df : list Row) : option (gmap string Z) :=
  foldl city_map_step (Some ∅) city_df.

Definition DEFAULT_TRAFFIC_SCORE : Z := 50.

(** [city_map.get(city.strip().lower(), DEFAULT_TRAFFIC_SCORE)] *)
Definition dict_get {V} (m : gmap string V) (k : string) (d : V) : V :=
  match m !! k with
  | Some v => v
  | None => d
  end.

Definition traffic_score_of (cm : gmap string Z) (city : string) : Z :=
  dict_get cm (Text.lower (Text.strip city)) DEFAULT_TRAFFIC_SCORE.

(** [list(city_map.keys())], in some iteration order. *)
Definition dict_keys {V} (m : gmap string V) : list string :=
  (map_to_list m).*1.

(** [sorted]: a stable sort by code-point order. *)
Definition sorted (l : list string) : list string :=
  merge_sort String.le l.

(** [GET /api/cities] *)
Definition get_cities (cm : gmap string Z) : list string :=
  sorted (Text.title <$> dict_keys cm).

(** ** Python's [str] methods in full

    A Python string is kept as the bytes of its UTF-8 form, which is what
    a string literal of this file holds.  The methods below decode the
    bytes to code points, work on the code points as CPython 3.11 does
    (Unicode 14.0: its whitespace set, its full lower-case and title-case
    mappings, the properties Cased and Case_Ignorable, the rule for the
    final sigma) and encode the result.  The functions of [Text] above are
    the same methods on ASCII text. *)

Module PyStr.

Definition byte (c : ascii) : Z := Z.of_N (N_of_ascii c).

Definition char (b : Z) : ascii := ascii_of_N (Z.to_N b).

Definition is_continuation (b : Z) : bool := (128 <=? b) && (b <? 192).

(** A byte that is not part of a well-formed sequence is kept, as a value
    above the last code point; [encode] writes it back unchanged. *)
Definition stray (b : Z) : Z := 1114112 + b.

Fixpoint decode (s : string) : list Z :=
  match s with
  | EmptyString => []
  | String c0 s1 =>
      let b0 := byte c0 in
      if b0 <? 128 then b0 :: decode s1
      else
        match s1 with
        | String c1 s2 =>
            let b1 := byte c1 in
            if (194 <=? b0) && (b0 <? 224) && is_continuation b1
            then ((b0 - 192) * 64 + (b1 - 128)) :: decode s2
            else
              match s2 with
              | String c2 s3 =>
                  let b2 := byte c2 in
                  let cp3 := (b0 - 224) * 4096 + (b1 - 128) * 64 + (b2 - 128) in
                  if (224 <=? b0) && (b0 <? 240) && is_continuation b1
                     && is_continuation b2 && (2048 <=? cp3)
                  then cp3 :: decode s3
                  else
                    match s3 with
                    | String c3 s4 =>
                        let b3 := byte c3 in
                        let cp4 := (b0 - 240) * 262144 + (b1 - 128) * 4096
                                   + (b2 - 128) * 64 + (b3 - 128) in
                        if (240 <=? b0) && (b0 <? 245) && is_continuation b1
                           && is_continuation b2 && is_continuation b3
                           && (65536 <=? cp4) && (cp4 <? 1114112)
                        then cp4 :: decode s4
                        else stray b0 :: decode s1
                    | EmptyString => stray b0 :: decode s1
                    end
              | EmptyString => stray b0 :: decode s1
              end
        | EmptyString => [stray b0]
        end
  end.

Definition encode_point (cp : Z) (rest : string) : string :=
  if cp <? 128 then String (char cp) rest
  else if cp <? 2048 then
    String (char (192 + cp / 64)) (String (char (128 + cp mod 64)) rest)
  else if cp <? 65536 then
    String (char (224 + cp / 4096))
      (String (char (128 + (cp / 64) mod 64))
         (String (char (128 + cp mod 64)) rest))
  else if cp <? 1114112 then
    String (char (240 + cp / 262144))
      (String (char (128 + (cp / 4096) mod 64))
         (String (char (128 + (cp / 64) mod 64))
            (String (char (128 + cp mod 64)) rest)))
  else String (char (cp - 1114112)) rest.

Definition encode (l : list Z) : string := foldr encode_point EmptyString l.

Definition in_ranges (c : Z) (ranges : list (Z * Z)) : bool :=
  existsb (fun r => (fst r <=? c) && (c <=? snd r)) ranges.

(** A run [(first, last, step, delta)] maps every [step]-th code point
    from [first] to [last] to itself plus [delta]. *)
Fixpoint find_run (c : Z) (runs : list (Z * Z * Z * Z)) : option Z :=
  match runs with
  | [] => None
  | (first, last, step, delta) :: rest =>
      if (first <=? c) && (c <=? last) && ((c - first) mod step =? 0)
      then Some (c + delta)
      else find_run c rest
  end.

Fixpoint find_special (c : Z) (table : list (Z * list Z)) : option (list Z) :=
  match table with
  | [] => None
  | (c', l) :: rest => if c' =? c then Some l else find_special c rest
  end.

Definition whitespace : list (Z * Z) :=
  [
    (9, 13); (28, 32); (133, 133); (160, 160); (5760, 5760);
    (8192, 8202); (8232, 8233); (8239, 8239); (8287, 8287); (12288, 12288) ].

Definition cased_ranges : list (Z * Z) :=
  [
    (65, 90); (97, 122); (170, 170); (181, 181); (186, 186);
    (192, 214); (216, 246); (248, 442); (444, 447); (452, 659);
    (661, 696); (704, 705); (736, 740); (837, 837); (880, 883);
    (886, 887); (890, 893); (895, 895); (902, 902); (904, 906);
    (908, 908); (910, 929); (931, 1013); (1015, 1153); (1162, 1327);
    (1329, 1366); (1376, 1416); (4256, 4293); (4295, 4295); (4301, 4301);
    (4304, 4346); (4349, 4351); (5024, 5109); (5112, 5117); (7296, 7304);
    (7312, 7354); (7357, 7359); (7424, 7615); (7680, 7957); (7960, 7965);
    (7968, 8005); (8008, 8013); (8016, 8023); (8025, 8025); (8027, 8027);
    (8029, 8029); (8031, 8061); (8064, 8116); (8118, 8124); (8126, 8126);
    (8130, 8132); (8134, 8140); (8144, 8147); (8150, 8155); (8160, 8172);
    (8178, 8180); (8182, 8188); (8305, 8305); (8319, 8319); (8336, 8348);
    (8450, 8450); (8455, 8455); (8458, 8467); (8469, 8469); (8473, 8477);
    (8484, 8484); (8486, 8486); (8488, 8488); (8490, 8493); (8495, 8500);
    (8505, 8505); (8508, 8511); (8517, 8521); (8526, 8526); (8544, 8575);
    (8579, 8580); (9398, 9449); (11264, 11492); (11499, 11502); (11506, 11507);
    (11520, 11557); (11559, 11559); (11565, 11565); (42560, 42605); (42624, 42653);
    (42786, 42887); (42891, 42894); (42896, 42954); (42960, 42961); (42963, 42963);
    (42965, 42969); (42997, 42998); (43000, 43002); (43824, 43866); (43868, 43880);
    (43888, 43967); (64256, 64262); (64275, 64279); (65313, 65338); (65345, 65370);
    (66560, 66639); (66736, 66771); (66776, 66811); (66928, 66938); (66940, 66954);
    (66956, 66962); (66964, 66965); (66967, 66977); (66979, 66993); (66995, 67001);
    (67003, 67004); (67456, 67456); (67459, 67461); (67463, 67504); (67506, 67514);
    (68736, 68786); (68800, 68850); (71840, 71903); (93760, 93823); (119808, 119892);
    (119894, 119964); (119966, 119967); (119970, 119970); (119973, 119974); (119977, 119980);
    (119982, 119993); (119995, 119995); (119997, 120003); (120005, 120069); (120071, 120074);
    (120077, 120084); (120086, 120092); (120094, 120121); (120123, 120126); (120128, 120132);
    (120134, 120134); (120138, 120144); (120146, 120485); (120488, 120512); (120514, 120538);
    (120540, 120570); (120572, 120596); (120598, 120628); (120630, 120654); (120656, 120686);
    (120688, 120712); (120714, 120744); (120746, 120770); (120772, 120779); (122624, 122633);
    (122635, 122654); (125184, 125251); (127280, 127305); (127312, 127337); (127344, 127369) ].

Definition case_ignorable_ranges : list (Z * Z) :=
  [
    (39, 39); (46, 46); (58, 58); (94, 94); (96, 96);
    (168, 168); (173, 173); (175, 175); (180, 180); (183, 184);
    (688, 879); (884, 885); (890, 890); (900, 901); (903, 903);
    (1155, 1161); (1369, 1369); (1375, 1375); (1425, 1469); (1471, 1471);
    (1473, 1474); (1476, 1477); (1479, 1479); (1524, 1524); (1536, 1541);
    (1552, 1562); (1564, 1564); (1600, 1600); (1611, 1631); (1648, 1648);
    (1750, 1757); (1759, 1768); (1770, 1773); (1807, 1807); (1809, 1809);
    (1840, 1866); (1958, 1968); (2027, 2037); (2042, 2042); (2045, 2045);
    (2070, 2093); (2137, 2139); (2184, 2184); (2192, 2193); (2200, 2207);
    (2249, 2306); (2362, 2362); (2364, 2364); (2369, 2376); (2381, 2381);
    (2385, 2391); (2402, 2403); (2417, 2417); (2433, 2433); (2492, 2492);
    (2497, 2500); (2509, 2509); (2530, 2531); (2558, 2558); (2561, 2562);
    (2620, 2620); (2625, 2626); (2631, 2632); (2635, 2637); (2641, 2641);
    (2672, 2673); (2677, 2677); (2689, 2690); (2748, 2748); (2753, 2757);
    (2759, 2760); (2765, 2765); (2786, 2787); (2810, 2815); (2817, 2817);
    (2876, 2876); (2879, 2879); (2881, 2884); (2893, 2893); (2901, 2902);
    (2914, 2915); (2946, 2946); (3008, 3008); (3021, 3021); (3072, 3072);
    (3076, 3076); (3132, 3132); (3134, 3136); (3142, 3144); (3146, 3149);
    (3157, 3158); (3170, 3171); (3201, 3201); (3260, 3260); (3263, 3263);
    (3270, 3270); (3276, 3277); (3298, 3299); (3328, 3329); (3387, 3388);
    (3393, 3396); (3405, 3405); (3426, 3427); (3457, 3457); (3530, 3530);
    (3538, 3540); (3542, 3542); (3633, 3633); (3636, 3642); (3654, 3662);
    (3761, 3761); (3764, 3772); (3782, 3782); (3784, 3789); (3864, 3865);
    (3893, 3893); (3895, 3895); (3897, 3897); (3953, 3966); (3968, 3972);
    (3974, 3975); (3981, 3991); (3993, 4028); (4038, 4038); (4141, 4144);
    (4146, 4151); (4153, 4154); (4157, 4158); (4184, 4185); (4190, 4192);
    (4209, 4212); (4226, 4226); (4229, 4230); (4237, 4237); (4253, 4253);
    (4348, 4348); (4957, 4959); (5906, 5908); (5938, 5939); (5970, 5971);
    (6002, 6003); (6068, 6069); (6071, 6077); (6086, 6086); (6089, 6099);
    (6103, 6103); (6109, 6109); (6155, 6159); (6211, 6211); (6277, 6278);
    (6313, 6313); (6432, 6434); (6439, 6440); (6450, 6450); (6457, 6459);
    (6679, 6680); (6683, 6683); (6742, 6742); (6744, 6750); (6752, 6752);
    (6754, 6754); (6757, 6764); (6771, 6780); (6783, 6783); (6823, 6823);
    (6832, 6862); (6912, 6915); (6964, 6964); (6966, 6970); (6972, 6972);
    (6978, 6978); (7019, 7027); (7040, 7041); (7074, 7077); (7080, 7081);
    (7083, 7085); (7142, 7142); (7144, 7145); (7149, 7149); (7151, 7153);
    (7212, 7219); (7222, 7223); (7288, 7293); (7376, 7378); (7380, 7392);
    (7394, 7400); (7405, 7405); (7412, 7412); (7416, 7417); (7468, 7530);
    (7544, 7544); (7579, 7679); (8125, 8125); (8127, 8129); (8141, 8143);
    (8157, 8159); (8173, 8175); (8189, 8190); (8203, 8207); (8216, 8217);
    (8228, 8228); (8231, 8231); (8234, 8238); (8288, 8292); (8294, 8303);
    (8305, 8305); (8319, 8319); (8336, 8348); (8400, 8432); (11388, 11389);
    (11503, 11505); (11631, 11631); (11647, 11647); (11744, 11775); (11823, 11823);
    (12293, 12293); (12330, 12333); (12337, 12341); (12347, 12347); (12441, 12446);
    (12540, 12542); (40981, 40981); (42232, 42237); (42508, 42508); (42607, 42610);
    (42612, 42621); (42623, 42623); (42652, 42655); (42736, 42737); (42752, 42785);
    (42864, 42864); (42888, 42890); (42994, 42996); (43000, 43001); (43010, 43010);
    (43014, 43014); (43019, 43019); (43045, 43046); (43052, 43052); (43204, 43205);
    (43232, 43249); (43263, 43263); (43302, 43309); (43335, 43345); (43392, 43394);
    (43443, 43443); (43446, 43449); (43452, 43453); (43471, 43471); (43493, 43494);
    (43561, 43566); (43569, 43570); (43573, 43574); (43587, 43587); (43596, 43596);
    (43632, 43632); (43644, 43644); (43696, 43696); (43698, 43700); (43703, 43704);
    (43710, 43711); (43713, 43713); (43741, 43741); (43756, 43757); (43763, 43764);
    (43766, 43766); (43867, 43871); (43881, 43883); (44005, 44005); (44008, 44008);
    (44013, 44013); (64286, 64286); (64434, 64450); (65024, 65039); (65043, 65043);
    (65056, 65071); (65106, 65106); (65109, 65109); (65279, 65279); (65287, 65287);
    (65294, 65294); (65306, 65306); (65342, 65342); (65344, 65344); (65392, 65392);
    (65438, 65439); (65507, 65507); (65529, 65531); (66045, 66045); (66272, 66272);
    (66422, 66426); (67456, 67461); (67463, 67504); (67506, 67514); (68097, 68099);
    (68101, 68102); (68108, 68111); (68152, 68154); (68159, 68159); (68325, 68326);
    (68900, 68903); (69291, 69292); (69446, 69456); (69506, 69509); (69633, 69633);
    (69688, 69702); (69744, 69744); (69747, 69748); (69759, 69761); (69811, 69814);
    (69817, 69818); (69821, 69821); (69826, 69826); (69837, 69837); (69888, 69890);
    (69927, 69931); (69933, 69940); (70003, 70003); (70016, 70017); (70070, 70078);
    (70089, 70092); (70095, 70095); (70191, 70193); (70196, 70196); (70198, 70199);
    (70206, 70206); (70367, 70367); (70371, 70378); (70400, 70401); (70459, 70460);
    (70464, 70464); (70502, 70508); (70512, 70516); (70712, 70719); (70722, 70724);
    (70726, 70726); (70750, 70750); (70835, 70840); (70842, 70842); (70847, 70848);
    (70850, 70851); (71090, 71093); (71100, 71101); (71103, 71104); (71132, 71133);
    (71219, 71226); (71229, 71229); (71231, 71232); (71339, 71339); (71341, 71341);
    (71344, 71349); (71351, 71351); (71453, 71455); (71458, 71461); (71463, 71467);
    (71727, 71735); (71737, 71738); (71995, 71996); (71998, 71998); (72003, 72003);
    (72148, 72151); (72154, 72155); (72160, 72160); (72193, 72202); (72243, 72248);
    (72251, 72254); (72263, 72263); (72273, 72278); (72281, 72283); (72330, 72342);
    (72344, 72345); (72752, 72758); (72760, 72765); (72767, 72767); (72850, 72871);
    (72874, 72880); (72882, 72883); (72885, 72886); (73009, 73014); (73018, 73018);
    (73020, 73021); (73023, 73029); (73031, 73031); (73104, 73105); (73109, 73109);
    (73111, 73111); (73459, 73460); (78896, 78904); (92912, 92916); (92976, 92982);
    (92992, 92995); (94031, 94031); (94095, 94111); (94176, 94177); (94179, 94180);
    (110576, 110579); (110581, 110587); (110589, 110590); (113821, 113822); (113824, 113827);
    (118528, 118573); (118576, 118598); (119143, 119145); (119155, 119170); (119173, 119179);
    (119210, 119213); (119362, 119364); (121344, 121398); (121403, 121452); (121461, 121461);
    (121476, 121476); (121499, 121503); (121505, 121519); (122880, 122886); (122888, 122904);
    (122907, 122913); (122915, 122916); (122918, 122922); (123184, 123197); (123566, 123566);
    (123628, 123631); (125136, 125142); (125252, 125259); (127995, 127999); (917505, 917505);
    (917536, 917631); (917760, 917999) ].

Definition lower_runs : list (Z * Z * Z * Z) :=
  [
    (65, 90, 1, 32); (192, 214, 1, 32); (216, 222, 1, 32);
    (256, 302, 2, 1); (306, 310, 2, 1); (313, 327, 2, 1);
    (330, 374, 2, 1); (376, 376, 1, (-121)); (377, 381, 2, 1);
    (385, 385, 1, 210); (386, 388, 2, 1); (390, 390, 1, 206);
    (391, 391, 1, 1); (393, 394, 1, 205); (395, 395, 1, 1);
    (398, 398, 1, 79); (399, 399, 1, 202); (400, 400, 1, 203);
    (401, 401, 1, 1); (403, 403, 1, 205); (404, 404, 1, 207);
    (406, 406, 1, 211); (407, 407, 1, 209); (408, 408, 1, 1);
    (412, 412, 1, 211); (413, 413, 1, 213); (415, 415, 1, 214);
    (416, 420, 2, 1); (422, 422, 1, 218); (423, 423, 1, 1);
    (425, 425, 1, 218); (428, 428, 1, 1); (430, 430, 1, 218);
    (431, 431, 1, 1); (433, 434, 1, 217); (435, 437, 2, 1);
    (439, 439, 1, 219); (440, 440, 1, 1); (444, 444, 1, 1);
    (452, 452, 1, 2); (453, 453, 1, 1); (455, 455, 1, 2);
    (456, 456, 1, 1); (458, 458, 1, 2); (459, 475, 2, 1);
    (478, 494, 2, 1); (497, 497, 1, 2); (498, 500, 2, 1);
    (502, 502, 1, (-97)); (503, 503, 1, (-56)); (504, 542, 2, 1);
    (544, 544, 1, (-130)); (546, 562, 2, 1); (570, 570, 1, 10795);
    (571, 571, 1, 1); (573, 573, 1, (-163)); (574, 574, 1, 10792);
    (577, 577, 1, 1); (579, 579, 1, (-195)); (580, 580, 1, 69);
    (581, 581, 1, 71); (582, 590, 2, 1); (880, 882, 2, 1);
    (886, 886, 1, 1); (895, 895, 1, 116); (902, 902, 1, 38);
    (904, 906, 1, 37); (908, 908, 1, 64); (910, 911, 1, 63);
    (913, 929, 1, 32); (931, 939, 1, 32); (975, 975, 1, 8);
    (984, 1006, 2, 1); (1012, 1012, 1, (-60)); (1015, 1015, 1, 1);
    (1017, 1017, 1, (-7)); (1018, 1018, 1, 1); (1021, 1023, 1, (-130));
    (1024, 1039, 1, 80); (1040, 1071, 1, 32); (1120, 1152, 2, 1);
    (1162, 1214, 2, 1); (1216, 1216, 1, 15); (1217, 1229, 2, 1);
    (1232, 1326, 2, 1); (1329, 1366, 1, 48); (4256, 4293, 1, 7264);
    (4295, 4295, 1, 7264); (4301, 4301, 1, 7264); (5024, 5103, 1, 38864);
    (5104, 5109, 1, 8); (7312, 7354, 1, (-3008)); (7357, 7359, 1, (-3008));
    (7680, 7828, 2, 1); (7838, 7838, 1, (-7615)); (7840, 7934, 2, 1);
    (7944, 7951, 1, (-8)); (7960, 7965, 1, (-8)); (7976, 7983, 1, (-8));
    (7992, 7999, 1, (-8)); (8008, 8013, 1, (-8)); (8025, 8031, 2, (-8));
    (8040, 8047, 1, (-8)); (8072, 8079, 1, (-8)); (8088, 8095, 1, (-8));
    (8104, 8111, 1, (-8)); (8120, 8121, 1, (-8)); (8122, 8123, 1, (-74));
    (8124, 8124, 1, (-9)); (8136, 8139, 1, (-86)); (8140, 8140, 1, (-9));
    (8152, 8153, 1, (-8)); (8154, 8155, 1, (-100)); (8168, 8169, 1, (-8));
    (8170, 8171, 1, (-112)); (8172, 8172, 1, (-7)); (8184, 8185, 1, (-128));
    (8186, 8187, 1, (-126)); (8188, 8188, 1, (-9)); (8486, 8486, 1, (-7517));
    (8490, 8490, 1, (-8383)); (8491, 8491, 1, (-8262)); (8498, 8498, 1, 28);
    (8544, 8559, 1, 16); (8579, 8579, 1, 1); (9398, 9423, 1, 26);
    (11264, 11311, 1, 48); (11360, 11360, 1, 1); (11362, 11362, 1, (-10743));
    (11363, 11363, 1, (-3814)); (11364, 11364, 1, (-10727)); (11367, 11371, 2, 1);
    (11373, 11373, 1, (-10780)); (11374, 11374, 1, (-10749)); (11375, 11375, 1, (-10783));
    (11376, 11376, 1, (-10782)); (11378, 11378, 1, 1); (11381, 11381, 1, 1);
    (11390, 11391, 1, (-10815)); (11392, 11490, 2, 1); (11499, 11501, 2, 1);
    (11506, 11506, 1, 1); (42560, 42604, 2, 1); (42624, 42650, 2, 1);
    (42786, 42798, 2, 1); (42802, 42862, 2, 1); (42873, 42875, 2, 1);
    (42877, 42877, 1, (-35332)); (42878, 42886, 2, 1); (42891, 42891, 1, 1);
    (42893, 42893, 1, (-42280)); (42896, 42898, 2, 1); (42902, 42920, 2, 1);
    (42922, 42922, 1, (-42308)); (42923, 42923, 1, (-42319)); (42924, 42924, 1, (-42315));
    (42925, 42925, 1, (-42305)); (42926, 42926, 1, (-42308)); (42928, 42928, 1, (-42258));
    (42929, 42929, 1, (-42282)); (42930, 42930, 1, (-42261)); (42931, 42931, 1, 928);
    (42932, 42946, 2, 1); (42948, 42948, 1, (-48)); (42949, 42949, 1, (-42307));
    (42950, 42950, 1, (-35384)); (42951, 42953, 2, 1); (42960, 42960, 1, 1);
    (42966, 42968, 2, 1); (42997, 42997, 1, 1); (65313, 65338, 1, 32);
    (66560, 66599, 1, 40); (66736, 66771, 1, 40); (66928, 66964, 2, 39);
    (66929, 66937, 2, 39); (66941, 66953, 2, 39); (66957, 66961, 2, 39);
    (66965, 66965, 1, 39); (68736, 68786, 1, 64); (71840, 71871, 1, 32);
    (93760, 93791, 1, 32); (125184, 125217, 1, 34) ].

Definition lower_special : list (Z * list Z) :=
  [
    (304, [105; 775]) ].

Definition title_runs : list (Z * Z * Z * Z) :=
  [
    (97, 122, 1, (-32)); (181, 181, 1, 743); (224, 246, 1, (-32));
    (248, 254, 1, (-32)); (255, 255, 1, 121); (257, 303, 2, (-1));
    (305, 305, 1, (-232)); (307, 311, 2, (-1)); (314, 328, 2, (-1));
    (331, 375, 2, (-1)); (378, 382, 2, (-1)); (383, 383, 1, (-300));
    (384, 384, 1, 195); (387, 389, 2, (-1)); (392, 392, 1, (-1));
    (396, 396, 1, (-1)); (402, 402, 1, (-1)); (405, 405, 1, 97);
    (409, 409, 1, (-1)); (410, 410, 1, 163); (414, 414, 1, 130);
    (417, 421, 2, (-1)); (424, 424, 1, (-1)); (429, 429, 1, (-1));
    (432, 432, 1, (-1)); (436, 438, 2, (-1)); (441, 441, 1, (-1));
    (445, 445, 1, (-1)); (447, 447, 1, 56); (452, 452, 1, 1);
    (454, 454, 1, (-1)); (455, 455, 1, 1); (457, 457, 1, (-1));
    (458, 458, 1, 1); (460, 476, 2, (-1)); (477, 477, 1, (-79));
    (479, 495, 2, (-1)); (497, 497, 1, 1); (499, 501, 2, (-1));
    (505, 543, 2, (-1)); (547, 563, 2, (-1)); (572, 572, 1, (-1));
    (575, 576, 1, 10815); (578, 578, 1, (-1)); (583, 591, 2, (-1));
    (592, 592, 1, 10783); (593, 593, 1, 10780); (594, 594, 1, 10782);
    (595, 595, 1, (-210)); (596, 596, 1, (-206)); (598, 599, 1, (-205));
    (601, 601, 1, (-202)); (603, 603, 1, (-203)); (604, 604, 1, 42319);
    (608, 608, 1, (-205)); (609, 609, 1, 42315); (611, 611, 1, (-207));
    (613, 613, 1, 42280); (614, 614, 1, 42308); (616, 616, 1, (-209));
    (617, 617, 1, (-211)); (618, 618, 1, 42308); (619, 619, 1, 10743);
    (620, 620, 1, 42305); (623, 623, 1, (-211)); (625, 625, 1, 10749);
    (626, 626, 1, (-213)); (629, 629, 1, (-214)); (637, 637, 1, 10727);
    (640, 640, 1, (-218)); (642, 642, 1, 42307); (643, 643, 1, (-218));
    (647, 647, 1, 42282); (648, 648, 1, (-218)); (649, 649, 1, (-69));
    (650, 651, 1, (-217)); (652, 652, 1, (-71)); (658, 658, 1, (-219));
    (669, 669, 1, 42261); (670, 670, 1, 42258); (837, 837, 1, 84);
    (881, 883, 2, (-1)); (887, 887, 1, (-1)); (891, 893, 1, 130);
    (940, 940, 1, (-38)); (941, 943, 1, (-37)); (945, 961, 1, (-32));
    (962, 962, 1, (-31)); (963, 971, 1, (-32)); (972, 972, 1, (-64));
    (973, 974, 1, (-63)); (976, 976, 1, (-62)); (977, 977, 1, (-57));
    (981, 981, 1, (-47)); (982, 982, 1, (-54)); (983, 983, 1, (-8));
    (985, 1007, 2, (-1)); (1008, 1008, 1, (-86)); (1009, 1009, 1, (-80));
    (1010, 1010, 1, 7); (1011, 1011, 1, (-116)); (1013, 1013, 1, (-96));
    (1016, 1016, 1, (-1)); (1019, 1019, 1, (-1)); (1072, 1103, 1, (-32));
    (1104, 1119, 1, (-80)); (1121, 1153, 2, (-1)); (1163, 1215, 2, (-1));
    (1218, 1230, 2, (-1)); (1231, 1231, 1, (-15)); (1233, 1327, 2, (-1));
    (1377, 1414, 1, (-48)); (5112, 5117, 1, (-8)); (7296, 7296, 1, (-6254));
    (7297, 7297, 1, (-6253)); (7298, 7298, 1, (-6244)); (7299, 7300, 1, (-6242));
    (7301, 7301, 1, (-6243)); (7302, 7302, 1, (-6236)); (7303, 7303, 1, (-6181));
    (7304, 7304, 1, 35266); (7545, 7545, 1, 35332); (7549, 7549, 1, 3814);
    (7566, 7566, 1, 35384); (7681, 7829, 2, (-1)); (7835, 7835, 1, (-59));
    (7841, 7935, 2, (-1)); (7936, 7943, 1, 8); (7952, 7957, 1, 8);
    (7968, 7975, 1, 8); (7984, 7991, 1, 8); (8000, 8005, 1, 8);
    (8017, 8023, 2, 8); (8032, 8039, 1, 8); (8048, 8049, 1, 74);
    (8050, 8053, 1, 86); (8054, 8055, 1, 100); (8056, 8057, 1, 128);
    (8058, 8059, 1, 112); (8060, 8061, 1, 126); (8064, 8071, 1, 8);
    (8080, 8087, 1, 8); (8096, 8103, 1, 8); (8112, 8113, 1, 8);
    (8115, 8115, 1, 9); (8126, 8126, 1, (-7205)); (8131, 8131, 1, 9);
    (8144, 8145, 1, 8); (8160, 8161, 1, 8); (8165, 8165, 1, 7);
    (8179, 8179, 1, 9); (8526, 8526, 1, (-28)); (8560, 8575, 1, (-16));
    (8580, 8580, 1, (-1)); (9424, 9449, 1, (-26)); (11312, 11359, 1, (-48));
    (11361, 11361, 1, (-1)); (11365, 11365, 1, (-10795)); (11366, 11366, 1, (-10792));
    (11368, 11372, 2, (-1)); (11379, 11379, 1, (-1)); (11382, 11382, 1, (-1));
    (11393, 11491, 2, (-1)); (11500, 11502, 2, (-1)); (11507, 11507, 1, (-1));
    (11520, 11557, 1, (-7264)); (11559, 11559, 1, (-7264)); (11565, 11565, 1, (-7264));
    (42561, 42605, 2, (-1)); (42625, 42651, 2, (-1)); (42787, 42799, 2, (-1));
    (42803, 42863, 2, (-1)); (42874, 42876, 2, (-1)); (42879, 42887, 2, (-1));
    (42892, 42892, 1, (-1)); (42897, 42899, 2, (-1)); (42900, 42900, 1, 48);
    (42903, 42921, 2, (-1)); (42933, 42947, 2, (-1)); (42952, 42954, 2, (-1));
    (42961, 42961, 1, (-1)); (42967, 42969, 2, (-1)); (42998, 42998, 1, (-1));
    (43859, 43859, 1, (-928)); (43888, 43967, 1, (-38864)); (65345, 65370, 1, (-32));
    (66600, 66639, 1, (-40)); (66776, 66811, 1, (-40)); (66967, 67003, 2, (-39));
    (66968, 66976, 2, (-39)); (66980, 66992, 2, (-39)); (66996, 67000, 2, (-39));
    (67004, 67004, 1, (-39)); (68800, 68850, 1, (-64)); (71872, 71903, 1, (-32));
    (93792, 93823, 1, (-32)); (125218, 125251, 1, (-34)) ].

Definition title_special : list (Z * list Z) :=
  [
    (223, [83; 115]); (329, [700; 78]); (496, [74; 780]);
    (912, [921; 776; 769]); (944, [933; 776; 769]); (1415, [1333; 1410]);
    (7830, [72; 817]); (7831, [84; 776]); (7832, [87; 778]);
    (7833, [89; 778]); (7834, [65; 702]); (8016, [933; 787]);
    (8018, [933; 787; 768]); (8020, [933; 787; 769]); (8022, [933; 787; 834]);
    (8114, [8122; 837]); (8116, [902; 837]); (8118, [913; 834]);
    (8119, [913; 834; 837]); (8130, [8138; 837]); (8132, [905; 837]);
    (8134, [919; 834]); (8135, [919; 834; 837]); (8146, [921; 776; 768]);
    (8147, [921; 776; 769]); (8150, [921; 834]); (8151, [921; 776; 834]);
    (8162, [933; 776; 768]); (8163, [933; 776; 769]); (8164, [929; 787]);
    (8166, [933; 834]); (8167, [933; 776; 834]); (8178, [8186; 837]);
    (8180, [911; 837]); (8182, [937; 834]); (8183, [937; 834; 837]);
    (64256, [70; 102]); (64257, [70; 105]); (64258, [70; 108]);
    (64259, [70; 102; 105]); (64260, [70; 102; 108]); (64261, [83; 116]);
    (64262, [83; 116]); (64275, [1348; 1398]); (64276, [1348; 1381]);
    (64277, [1348; 1387]); (64278, [1358; 1398]); (64279, [1348; 1389]) ].

(** [Py_UNICODE_ISSPACE] *)
Definition isspace (c : Z) : bool := in_ranges c whitespace.

Definition iscased (c : Z) : bool := in_ranges c cased_ranges.

Definition is_case_ignorable (c : Z) : bool :=
  in_ranges c case_ignorable_ranges.

Definition full_mapping (runs : list (Z * Z * Z * Z))
    (special : list (Z * list Z)) (c : Z) : list Z :=
  match find_special c special with
  | Some l => l
  | None =>
      match find_run c runs with
      | Some c' => [c']
      | None => [c]
      end
  end.

(** [_PyUnicode_ToLowerFull] and [_PyUnicode_ToTitleFull] *)
Definition to_lower_full : Z -> list Z := full_mapping lower_runs lower_special.
Definition to_title_full : Z -> list Z := full_mapping title_runs title_special.

Definition capital_sigma : Z := 931.

(** Whether the first code point of [l] that is not case-ignorable is
    cased. *)
Fixpoint cased_ahead (l : list Z) : bool :=
  match l with
  | [] => false
  | c :: rest => if is_case_ignorable c then cased_ahead rest else iscased c
  end.

(** [handle_capital_sigma]: a capital sigma that follows a cased letter
    and is not followed by one, case-ignorable code points apart, becomes
    the final small sigma. *)
Definition lower_sigma (cased_before : bool) (rest : list Z) : Z :=
  if cased_before && negb (cased_ahead rest) then 962 else 963.

(** [lower_ucs4] *)
Definition lower_at (cased_before : bool) (c : Z) (rest : list Z) : list Z :=
  if c =? capital_sigma then [lower_sigma cased_before rest]
  else to_lower_full c.

(** What the code points read so far say about a sigma to come. *)
Definition cased_after (cased_before : bool) (c : Z) : bool :=
  if is_case_ignorable c then cased_before else iscased c.

(** [do_lower] *)
Fixpoint lower_points (cased_before : bool) (l : list Z) : list Z :=
  match l with
  | [] => []
  | c :: rest =>
      lower_at cased_before c rest
      ++ lower_points (cased_after cased_before c) rest
  end.

(** [do_title] *)
Fixpoint title_points (previous_is_cased cased_before : bool) (l : list Z)
  : list Z :=
  match l with
  | [] => []
  | c :: rest =>
      (if previous_is_cased then lower_at cased_before c rest
       else to_title_full c)
      ++ title_points (iscased c) (cased_after cased_before c) rest
  end.

Fixpoint lstrip_points (l : list Z) : list Z :=
  match l with
  | [] => []
  | c :: rest => if isspace c then lstrip_points rest else l
  end.

Fixpoint rstrip_points (l : list Z) : list Z :=
  match l with
  | [] => []
  | c :: rest =>
      match rstrip_points rest with
      | [] => if isspace c then [] else [c]
      | t => c :: t
      end
  end.

Definition strip_points (l : list Z) : list Z :=
  rstrip_points (lstrip_points l).

(** [str.strip] with no argument *)
Definition strip (s : string) : string := encode (strip_points (decode s)).

(** [str.lower] *)
Definition lower (s : string) : string :=
  encode (lower_points false (decode s)).

(** [str.title] *)
Definition title (s : string) : string :=
  encode (title_points false false (decode s)).

End PyStr.

(** ** The city table, with the full string methods

    The construction of [city_map], the lookup of [predict] and
    [get_cities] for text of any kind.  The definitions of the same names
    above, written with [Text], coincide with these on ASCII text; the
    lemmas [city_map_agree], [traffic_score_agree] and [get_cities_agree]
    say so. *)

Module Full.

Definition normalize (s : string) : string := PyStr.lower (PyStr.strip s).

Definition row_key (r : Row) : string := normalize (py_str (CITY r)).

(** The dictionary comprehension that builds [city_map]. *)
Definition city_map_step (acc : option (gmap string Z)) (r : Row)
  : option (gmap string Z) :=
  m ← acc;
  v ← py_int (TRAFFIC_SCORE r);
  Some (<[row_key r := v]> m).

Definition city_map (city_df : list Row) : option (gmap string Z) :=
  foldl city_map_step (Some ∅) city_df.

(** [city_map.get(city.strip().lower(), DEFAULT_TRAFFIC_SCORE)] *)
Definition traffic_score_of (cm : gmap string Z) (city : string) : Z :=
  dict_get cm (PyStr.lower (PyStr.strip city)) DEFAULT_TRAFFIC_SCORE.

(** [GET /api/cities] *)
Definition get_cities (cm : gmap string Z) : list string :=
  sorted (PyStr.title <$> dict_keys cm).

End Full.

(** ** Binary64 arithmetic *)

Module F64.

Definition prec : Z := 53.
Definition emax : Z := 1024.

Definition add := SFadd prec emax.
Definition sub := SFsub prec emax.
Definition mul := SFmul prec emax.
Definition div := SFdiv prec emax.
Definition sqrt := SFsqrt prec emax.
Definition abs := SFabs.
Definition ltb := SFltb.
Definition leb := SFleb.

(** [float(z)] for an integer: the nearest binary64 value. *)
Definition of_Z (z : Z) : spec_float := binary_normalize prec emax z 0 false.

(** The decimal literal [n / 10^k], read as Python reads it: the
    nearest binary64 value.  Both [n] and [10^k] are exact in binary64
    for the literals of this program, so one correctly rounded division
    gives it. *)
Definition dec (n : Z) (k : Z) : spec_float := div (of_Z n) (of_Z (10 ^ k)).

(** Round a non-negative rational [n / d] to an integer, ties to even. *)
Definition half_even (n d : Z) : Z :=
  let q := n / d in
  let r := n mod d in
  match (2 * r ?= d) with
  | Lt => q
  | Gt => q + 1
  | Eq => if Z.even q then q else q + 1
  end.

(** The integer nearest to the magnitude of a finite value [m * 2^e],
    ties to even. *)
Definition nearest_int (m : positive) (e : Z) : Z :=
  match e with
  | Zneg p => half_even (Zpos m) (2 ^ Zpos p)
  | _ => Z.shiftl (Zpos m) e
  end.

(** [numpy.rint] *)
Definition rint (x : spec_float) : spec_float :=
  match x with
  | S754_finite s m e =>
      match e with
      | Zneg _ => binary_normalize prec emax
                    (if s then - nearest_int m e else nearest_int m e) 0 s
      | _ => x
      end
  | _ => x
  end.

(** [numpy.float64.__round__(x, ndigits)] for [ndigits > 0], numpy's
    documented algorithm: multiply by [10^ndigits], [rint], divide. *)
Definition np_round (x : spec_float) (ndigits : Z) : spec_float :=
  let f := of_Z (10 ^ ndigits) in
  div (rint (mul x f)) f.

(** [float.__round__(x, ndigits)] for [0 <= ndigits]: the exact value
    of [x] is rounded to [ndigits] decimal places, ties to even, and
    the decimal result is read back as the nearest binary64 value. *)
Definition py_round (x : spec_float) (ndigits : Z) : spec_float :=
  match x with
  | S754_finite s m e =>
      let q := nearest_int (m * Z.to_pos (10 ^ ndigits)) e in
      match q with
      | Zpos q' => div (S754_finite s q' 0) (of_Z (10 ^ ndigits))
      | _ => S754_zero s
      end
  | _ => x
  end.

End F64.

(** A Python scalar is a built-in [float] or a [numpy.float64]; the two
    carry the same binary64 value and differ in how [round] treats them. *)
Inductive scalar :=
  | PyFloat (f : spec_float)
  | NpFloat64 (f : spec_float).

Definition scalar_value (x : scalar) : spec_float :=
  match x with
  | PyFloat f => f
  | NpFloat64 f => f
  end.

(** The built-in [round(x, ndigits)], which calls [type(x).__round__]. *)
Definition round (x : scalar) (ndigits : Z) : scalar :=
  match x with
  | PyFloat f => PyFloat (F64.py_round f ndigits)
  | NpFloat64 f => NpFloat64 (F64.np_round f ndigits)
  end.

(** [x - k] and [x + k] for a scalar [x] and an integer literal [k]: the
    integer is converted to binary64 and the result has the kind of [x]. *)
Definition sub_int (x : scalar) (k : Z) : scalar :=
  match x with
  | PyFloat f => PyFloat (F64.sub f (F64.of_Z k))
  | NpFloat64 f => NpFloat64 (F64.sub f (F64.of_Z k))
  end.

Definition add_int (x : scalar) (k : Z) : scalar :=
  match x with
  | PyFloat f => PyFloat (F64.add f (F64.of_Z k))
  | NpFloat64 f => NpFloat64 (F64.add f (F64.of_Z k))
  end.

(** ** Data frames and the model artifact *)

Inductive cell :=
  | CNum (n : number)
  | CStr (s : string).

Definition cell_int (z : Z) : cell := CNum (NInt z).
Definition cell_float (f : spec_float) : cell := CNum (NFloat f).

(** A frame: its column labels in order and its rows, each row holding
    one cell per column. *)
Record DataFrame := {
  columns : list string;
  rows : list (list cell)
}.

(** [pd.DataFrame([record])]: the keys of the record, in the order they
    were written, become the columns. *)
Definition pd_DataFrame (records : list (list (string * cell))) : DataFrame :=
  match records with
  | [] => {| columns := []; rows := [] |}
  | r :: _ => {| columns := r.*1; rows := (fun r => r.*2) <$> records |}
  end.

(** The loaded pipeline, an opaque object: [predict_] is its method
    [predict], which returns an array of [float64] or raises; [regressor]
    is [named_steps["regressor"].feature_importances_], absent when the
    pipeline has no such step. *)
Record Pipeline := {
  predict_ : DataFrame -> option (list spec_float);
  regressor : option (list spec_float)
}.

(** What [joblib.load] returns: [artifact["model"]] and
    [artifact["features"]]. *)
Record Artifact := {
  art_model : Pipeline;
  art_features : list string
}.

(** The values kept in the [ml_models] dictionary. *)
Inductive obj :=
  | OModel (p : Pipeline)
  | OFeatures (names : list string)
  | OImportance (d : gmap string spec_float).

(** The values kept in the [metrics_data] dictionary. *)
Inductive metric :=
  | MNum (f : spec_float)
  | MStr (s : string).

(** [dict(pairs)]: pairs are inserted in order, a later pair replacing an
    earlier one with the same key. *)
Definition dict {V} (pairs : list (string * V)) : gmap string V :=
  foldl (fun m kv => <[kv.1 := kv.2]> m) ∅ pairs.

(** [d.update(pairs)] *)
Definition dict_update {V} (d : gmap string V) (pairs : list (string * V))
  : gmap string V :=
  foldl (fun m kv => <[kv.1 := kv.2]> m) d pairs.

(** The two module-level dictionaries. *)
Record App := {
  ml_models : gmap string obj;
  metrics_data : gmap string metric
}.

Definition initial : App := {| ml_models := ∅; metrics_data := ∅ |}.

(** ** Request types *)

Inductive FuelType := Petrol | Diesel | CNG | Electric.

Inductive TransmissionType := Manual | Automatic.

(** The [.value] of an enumeration member *)
Definition FuelType_value (f : FuelType) : string :=
  match f with
  | Petrol => "Petrol"
  | Diesel => "Diesel"
  | CNG => "CNG"
  | Electric => "Electric"
  end.

Definition TransmissionType_value (t : TransmissionType) : string :=
  match t with
  | Manual => "Manual"
  | Automatic => "Automatic"
  end.

Record CarInput := {
  Total_km_driven : spec_float;
  Brand : string;
  Model : string;
  Engine_cc : spec_float;
  Fuel_type : FuelType;
  City : string;
  Transmission : TransmissionType;
  Age_of_vehicle : spec_float;
  Number_of_owners : Z
}.

(** A decoded JSON request body. *)
Inductive json :=
  | JNull
  | JBool (b : bool)
  | JInt (z : Z)
  | JFloat (f : spec_float)
  | JStr (s : string)
  | JList (l : list json)
  | JObject (members : list (string * json)).

(** Member lookup in a decoded object: when a name is repeated the
    decoder keeps the last value. *)
Fixpoint members_get (members : list (string * json)) (k : string)
  : option json :=
  match members with
  | [] => None
  | (k', v) :: rest =>
      match members_get rest k with
      | Some w => Some w
      | None => if decide (k' = k) then Some v else None
      end
  end.

Record PredictionResult := {
  predicted_mileage : scalar;
  range : list scalar;
  feature_importance : gmap string spec_float
}.

Inductive response :=
  | OK (r : PredictionResult)
  | UnprocessableEntity
  | InternalServerError.

Definition status_code (r : response) : Z :=
  match r with
  | OK _ => 200
  | UnprocessableEntity => 422
  | InternalServerError => 500
  end.

Definition is_client_error (r : response) : bool :=
  (400 <=? status_code r) && (status_code r <? 500).

(** ** The service *)

Section Service.

(** Third-party functions the program calls and whose code is not part
    of it: pydantic's lax reading of a number written as a string, and
    the scikit-learn / numpy reductions used for the offline metrics. *)
Variable str_as_float : string -> option spec_float.
Variable str_as_int : string -> option Z.
Variable mean_absolute_error : list spec_float -> list spec_float -> scalar.
Variable mean_squared_error : list spec_float -> list spec_float -> scalar.
Variable r2_score : list spec_float -> list spec_float -> scalar.
Variable np_mean : list spec_float -> spec_float.

(** *** Request validation (pydantic, at the boundary of [predict])

    The class [CarInput] only declares a type per field.  The validators
    below follow pydantic's default (lax) mode on decoded JSON: a number
    is taken as it is, an integer is widened to a float, a float without
    fractional part is taken as an integer, a boolean counts as 0 or 1,
    a string is read as a number where a number is expected, and nothing
    is converted to a string or to an enumeration member. *)

Definition bool_Z (b : bool) : Z := if b then 1 else 0.

(** A binary64 value that is neither NaN nor an infinity *)
Definition finite (f : spec_float) : bool :=
  match f with
  | S754_zero _ | S754_finite _ _ _ => true
  | _ => false
  end.

(** A field annotated [float]; an integer too large for binary64 is
    refused. *)
Definition validate_float (v : json) : option spec_float :=
  match v with
  | JFloat f => Some f
  | JInt z => if finite (F64.of_Z z) then Some (F64.of_Z z) else None
  | JBool b => Some (F64.of_Z (bool_Z b))
  | JStr s => str_as_float s
  | _ => None
  end.

(** A float is accepted by an [int] field when it has no fractional
    part and fits a signed 64-bit integer. *)
Definition whole (f : spec_float) : option Z :=
  match f with
  | S754_zero _ => Some 0
  | S754_finite s m e =>
      match e with
      | Zneg p =>
          if decide (Zpos m mod 2 ^ Zpos p = 0)
          then py_int (NFloat f) else None
      | _ => py_int (NFloat f)
      end
  | _ => None
  end.

Definition integral (f : spec_float) : option Z :=
  z ← whole f;
  if (- 2 ^ 63 <=? z) && (z <? 2 ^ 63) then Some z else None.

(** A field annotated [int] *)
Definition validate_int (v : json) : option Z :=
  match v with
  | JInt z => Some z
  | JFloat f => integral f
  | JBool b => Some (bool_Z b)
  | JStr s => str_as_int s
  | _ => None
  end.

(** A field annotated [str] *)
Definition validate_str (v : json) : option string :=
  match v with
  | JStr s => Some s
  | _ => None
  end.

(** A field annotated [FuelType]: the value must be one of the four
    labels. *)
Definition validate_FuelType (v : json) : option FuelType :=
  match v with
  | JStr s =>
      if decide (s = "Petrol") then Some Petrol
      else if decide (s = "Diesel") then Some Diesel
      else if decide (s = "CNG") then Some CNG
      else if decide (s = "Electric") then Some Electric
      else None
  | _ => None
  end.

Definition validate_TransmissionType (v : json) : option TransmissionType :=
  match v with
  | JStr s =>
      if decide (s = "Manual") then Some Manual
      else if decide (s = "Automatic") then Some Automatic
      else None
  | _ => None
  end.

(** Validation of a body against [CarInput]: the body must be an object
    that has every field, each accepted by its annotation; members the
    class does not declare are ignored. *)
Definition validate_CarInput (body : json) : option CarInput :=
  match body with
  | JObject o =>
      km ← members_get o "Total_km_driven" ≫= validate_float;
      brand ← members_get o "Brand" ≫= validate_str;
      model ← members_get o "Model" ≫= validate_str;
      cc ← members_get o "Engine_cc" ≫= validate_float;
      fuel ← members_get o "Fuel_type" ≫= validate_FuelType;
      city ← members_get o "City" ≫= validate_str;
      tr ← members_get o "Transmission" ≫= validate_TransmissionType;
      age ← members_get o "Age_of_vehicle" ≫= validate_float;
      owners ← members_get o "Number_of_owners" ≫= validate_int;
      Some {| Total_km_driven := km; Brand := brand; Model := model;
              Engine_cc := cc; Fuel_type := fuel; City := city;
              Transmission := tr; Age_of_vehicle := age;
              Number_of_owners := owners |}
  | _ => None
  end.

(** *** [predict] *)

(** The record literal of [predict], key by key. *)
Definition feature_record (cm : gmap string Z) (data : CarInput)
  : list (string * cell) :=
  let traffic_score := traffic_score_of cm (City data) in
  [ ("Total_km_driven", cell_float (Total_km_driven data));
    ("Brand", CStr (Brand data));
    ("Model", CStr (Model data));
    ("Engine_cc", cell_float (Engine_cc data));
    ("Fuel_type", CStr (FuelType_value (Fuel_type data)));
    ("City_traffic_score", cell_int traffic_score);
    ("Transmission", CStr (TransmissionType_value (Transmission data)));
    ("Age_of_vehicle", cell_float (Age_of_vehicle data));
    ("Number_of_owners", cell_int (Number_of_owners data)) ].

Definition input_df (cm : gmap string Z) (data : CarInput) : DataFrame :=
  pd_DataFrame [feature_record cm data].

(** The body of [predict].  The second component is the list of frames
    on which the pipeline's [predict] was called, in call order; the
    first is the returned dictionary, [None] when an exception
    escapes. *)
Definition predict (cm : gmap string Z) (app : App) (data : CarInput)
  : option PredictionResult * list DataFrame :=
  let df := input_df cm data in
  match ml_models app !! "model" with
  | Some (OModel model) =>
      (match predict_ model df with
       | Some (p :: _) =>
           let prediction := NpFloat64 p in
           match ml_models app !! "feature_importance_dict" with
           | Some (OImportance d) =>
               Some {| predicted_mileage := round prediction 2;
                       range := [ round (sub_int prediction 1) 2;
                                  round (add_int prediction 1) 2 ];
                       feature_importance := d |}
           | _ => None
           end
       | _ => None
       end, [df])
  | _ => (None, [])
  end.

(** The JSON encoder of the framework refuses NaN and the infinities. *)
Definition json_compliant (r : PredictionResult) : bool :=
  finite (scalar_value (predicted_mileage r))
  && forallb (fun x => finite (scalar_value x)) (range r)
  && forallb finite (map_to_list (feature_importance r)).*2.

(** [POST /api/predict]: the framework validates the body first and
    answers 422 itself when validation fails; an exception escaping the
    handler, or raised while its result is encoded, becomes a 500. *)
Definition post_predict (cm : gmap string Z) (app : App) (body : json)
  : response * list DataFrame :=
  match validate_CarInput body with
  | None => (UnprocessableEntity, [])
  | Some data =>
      match predict cm app data with
      | (Some r, calls) =>
          (if json_compliant r then OK r else InternalServerError, calls)
      | (None, calls) => (InternalServerError, calls)
      end
  end.

(** [GET /api/metrics] *)
Definition get_metrics (app : App) : gmap string metric := metrics_data app.

(** *** Startup ([lifespan]) *)

(** What the process finds when it starts: the unpickled artifact
    ([None] when [joblib.load] raises), the evaluation table when
    [test.csv] exists, and the draws of [np.random.choice]. *)
Record Env := {
  load_artifact : option Artifact;
  test_csv : option DataFrame;
  random_choice : list Z -> nat -> option (list Z)
}.

Definition renames : list (string * string) :=
  [ ("km_driven", "Total_km_driven");
    ("brand", "Brand");
    ("model", "Model");
    ("engine", "Engine_cc");
    ("fuel_type", "Fuel_type");
    ("transmission_type", "Transmission");
    ("vehicle_age", "Age_of_vehicle");
    ("number_of_owners", "Number_of_owners");
    ("mileage", "Real_world_mileage") ].

Fixpoint assoc (l : list (string * string)) (k : string) : option string :=
  match l with
  | [] => None
  | (k', v) :: rest => if decide (k' = k) then Some v else assoc rest k
  end.

(** [df.rename(columns=mapping)] *)
Definition rename (mapping : list (string * string)) (df : DataFrame)
  : DataFrame :=
  {| columns := (fun c => default c (assoc mapping c)) <$> columns df;
     rows := rows df |}.

Fixpoint index_of (c : string) (cols : list string) : option nat :=
  match cols with
  | [] => None
  | c' :: rest => if decide (c' = c) then Some 0%nat else S <$> index_of c rest
  end.

(** [df[c]]: the cells of one column, [KeyError] when there is none. *)
Definition column (c : string) (df : DataFrame) : option (list cell) :=
  i ← index_of c (columns df);
  mapM (fun r : list cell => r !! i) (rows df).

(** [df[names]]: the named columns, in the order asked for. *)
Definition select (names : list string) (df : DataFrame) : option DataFrame :=
  idx ← mapM (fun c => index_of c (columns df)) names;
  rs ← mapM (fun r : list cell => mapM (fun i : nat => r !! i) idx) (rows df);
  Some {| columns := names; rows := rs |}.

(** [df[c] = values]: an existing column is overwritten in place, a new
    one is added last; the number of values must be the number of
    rows. *)
Definition assign (c : string) (values : list cell) (df : DataFrame)
  : option DataFrame :=
  if decide (length values = length (rows df)) then
    match index_of c (columns df) with
    | Some i =>
        Some {| columns := columns df;
                rows := zip_with (fun r v => <[i := v]> r) (rows df) values |}
    | None =>
        Some {| columns := columns df ++ [c];
                rows := zip_with (fun r v => r ++ [v]) (rows df) values |}
    end
  else None.

Definition to_float (c : cell) : option spec_float :=
  match c with
  | CNum (NInt z) => Some (F64.of_Z z)
  | CNum (NFloat f) => Some f
  | CStr _ => None
  end.

Definition dict_values {V} (m : gmap string V) : list V :=
  (map_to_list m).*2.

(** The predictions and the ground truth of the evaluation branch. *)
Definition test_predictions (cm : gmap string Z) (env : Env)
    (model : Pipeline) (feature_names : list string) (test_df : DataFrame)
  : option (list spec_float * list spec_float) :=
  let test_df := rename renames test_df in
  let traffic_values := dict_values cm in
  scores ← random_choice env traffic_values (length (rows test_df));
  test_df ← assign "City_traffic_score" (cell_int <$> scores) test_df;
  X_test ← select feature_names test_df;
  y_cells ← column "Real_world_mileage" test_df;
  preds ← predict_ model X_test;
  y_test ← mapM to_float y_cells;
  if decide (length preds = length y_test) then Some (preds, y_test)
  else None.

Definition count_true (flags : list bool) : Z :=
  Z.of_nat (length (filter (fun b => b = true) flags)).

(** The mean of a boolean array: the count of [True] over the size, in
    binary64. *)
Definition mean_bool (flags : list bool) : spec_float :=
  F64.div (F64.of_Z (count_true flags)) (F64.of_Z (Z.of_nat (length flags))).

(** [float(np.mean(np.abs(preds - y_test) <= 1) * 100)] *)
Definition within_1_km (preds y_test : list spec_float) : spec_float :=
  let errors := zip_with F64.sub preds y_test in
  let flags := (fun d => F64.leb (F64.abs d) (F64.of_Z 1)) <$> errors in
  F64.mul (mean_bool flags) (F64.of_Z 100).

Definition grade (within_1 : spec_float) : string :=
  if F64.ltb (F64.of_Z 75) within_1 then "EXCELLENT" else "GOOD".

Definition computed_metrics (preds y_test : list spec_float)
  : list (string * metric) :=
  let mae := mean_absolute_error y_test preds in
  let rmse := NpFloat64 (F64.sqrt (scalar_value (mean_squared_error y_test preds))) in
  let r2 := r2_score y_test preds in
  let bias := PyFloat (np_mean (zip_with F64.sub preds y_test)) in
  let within_1 := within_1_km preds y_test in
  [ ("MAE", MNum (scalar_value (round mae 4)));
    ("RMSE", MNum (scalar_value (round rmse 4)));
    ("R2", MNum (scalar_value (round r2 4)));
    ("Bias", MNum (scalar_value (round bias 4)));
    ("Within_1_km", MNum (scalar_value (round (PyFloat within_1) 2)));
    ("Grade", MStr (grade within_1)) ].

Definition fallback_metrics : list (string * metric) :=
  [ ("MAE", MNum (F64.dec 125 2));
    ("RMSE", MNum (F64.dec 185 2));
    ("R2", MNum (F64.dec 89 2));
    ("Bias", MNum (F64.dec (-12) 2));
    ("Within_1_km", MNum (F64.dec 825 1));
    ("Grade", MStr "EXCELLENT") ].

(** The part of [lifespan] before [yield]. *)
Definition startup (cm : gmap string Z) (env : Env) (app : App) : option App :=
  artifact ← load_artifact env;
  let model := art_model artifact in
  let feature_names := art_features artifact in
  importances ← regressor model;
  let ml :=
    <["feature_importance_dict" :=
        OImportance (dict (zip feature_names importances))]>
      (<["features" := OFeatures feature_names]>
         (<["model" := OModel model]> (ml_models app))) in
  md ← match test_csv env with
       | Some test_df =>
           '(preds, y_test) ← test_predictions cm env model feature_names test_df;
           Some (dict_update (metrics_data app) (computed_metrics preds y_test))
       | None => Some (dict_update (metrics_data app) fallback_metrics)
       end;
  Some {| ml_models := ml; metrics_data := md |}.

(** The part of [lifespan] after [yield]. *)
Definition shutdown (app : App) : App :=
  {| ml_models := ∅; metrics_data := ∅ |}.

End Service.

(** The JSON object a client writes for a given input, numbers written
    as numbers. *)
Definition json_of_CarInput (data : CarInput) : json :=
  JObject [ ("Total_km_driven", JFloat (Total_km_driven data));
            ("Brand", JStr (Brand data));
            ("Model", JStr (Model data));
            ("Engine_cc", JFloat (Engine_cc data));
            ("Fuel_type", JStr (FuelType_value (Fuel_type data)));
            ("City", JStr (City data));
            ("Transmission", JStr (TransmissionType_value (Transmission data)));
            ("Age_of_vehicle", JFloat (Age_of_vehicle data));
            ("Number_of_owners", JInt (Number_of_owners data)) ].

(** The fields that the class [CarInput] declares, in order. *)
Definition CarInput_fields : list string :=
  [ "Total_km_driven"; "Brand"; "Model"; "Engine_cc"; "Fuel_type"; "City";
    "Transmission"; "Age_of_vehicle"; "Number_of_owners" ].

(** The percentage of predictions within one unit of the truth, written
    after the specification: the predictions are paired with the true
    values, a pair counts when the absolute difference is at most 1, and
    the count is divided by the number of values and multiplied by 100,
    in binary64. *)
Definition within_one (prediction truth : spec_float) : bool :=
  F64.leb (F64.abs (F64.sub prediction truth)) (F64.of_Z 1).

Fixpoint count_within_one (preds y_test : list spec_float) : Z :=
  match preds, y_test with
  | p :: preds', t :: y_test' =>
      (if within_one p t then 1 else 0) + count_within_one preds' y_test'
  | _, _ => 0
  end.

Definition percentage_within_one (preds y_test : list spec_float)
  : spec_float :=
  F64.mul (F64.div (F64.of_Z (count_within_one preds y_test))
                   (F64.of_Z (Z.of_nat (length y_test))))
          (F64.of_Z 100).

(** * Sample data

    Concrete tables, artifacts and requests on which the statements below
    are exercised. *)

Definition sample_city_df : list Row :=
  [ {| CITY := Some "Mumbai"; TRAFFIC_SCORE := NInt 85 |};
    {| CITY := Some " delhi"; TRAFFIC_SCORE := NFloat (F64.dec 905 1) |};
    {| CITY := None; TRAFFIC_SCORE := NInt 10 |};
    {| CITY := Some "new  york-city o'neil 3rd"; TRAFFIC_SCORE := NInt 10 |};
    {| CITY := Some "  MUMBAI  "; TRAFFIC_SCORE := NInt 70 |} ].

Definition sample_city_map : gmap string Z :=
  default ∅ (city_map sample_city_df).

(** A no-break space, U+00A0 *)
Definition nbsp : string := PyStr.encode [160].

(** A source table with names outside ASCII: a capitalised name with a
    tilde, the sharp s next to a double s, and a name behind a no-break
    space. *)
Definition wide_city_df : list Row :=
  [ {| CITY := Some "Mumbai"; TRAFFIC_SCORE := NInt 85 |};
    {| CITY := Some " delhi"; TRAFFIC_SCORE := NFloat (F64.dec 905 1) |};
    {| CITY := Some "SÃO PAULO"; TRAFFIC_SCORE := NInt 60 |};
    {| CITY := Some "ß"; TRAFFIC_SCORE := NInt 30 |};
    {| CITY := Some "ss"; TRAFFIC_SCORE := NInt 40 |};
    {| CITY := Some (nbsp +:+ "MUMBAI  "); TRAFFIC_SCORE := NInt 70 |} ].

Definition wide_city_map : gmap string Z :=
  default ∅ (Full.city_map wide_city_df).

Definition sample_features : list string :=
  [ "Total_km_driven"; "Brand"; "Model"; "Engine_cc"; "Fuel_type";
    "City_traffic_score"; "Transmission"; "Age_of_vehicle";
    "Number_of_owners" ].

(** A pipeline that predicts 15.045 for every row and reports one
    importance per declared feature. *)
Definition sample_pipeline : Pipeline :=
  {| predict_ := fun df => Some ((fun _ => F64.dec 15045 3) <$> rows df);
     regressor := Some [ F64.dec 20 2; F64.dec 5 2; F64.dec 10 2;
                         F64.dec 25 2; F64.dec 5 2; F64.dec 10 2;
                         F64.dec 5 2; F64.dec 15 2; F64.dec 5 2 ] |}.

Definition sample_artifact : Artifact :=
  {| art_model := sample_pipeline; art_features := sample_features |}.

(** A pipeline whose regressor was fitted on three selected inputs only,
    and so reports three importances. *)
Definition narrow_pipeline : Pipeline :=
  {| predict_ := predict_ sample_pipeline;
     regressor := Some [ F64.dec 50 2; F64.dec 30 2; F64.dec 20 2 ] |}.

Definition narrow_artifact : Artifact :=
  {| art_model := narrow_pipeline; art_features := sample_features |}.

(** A source of draws that always picks the first value. *)
Definition first_choice (values : list Z) (size : nat) : option (list Z) :=
  match values, size with
  | _, O => Some []
  | [], _ => None
  | v :: _, _ => Some (replicate size v)
  end.

Definition sample_env : Env :=
  {| load_artifact := Some sample_artifact;
     test_csv := None;
     random_choice := first_choice |}.

Definition narrow_env : Env :=
  {| load_artifact := Some narrow_artifact;
     test_csv := None;
     random_choice := first_choice |}.

Definition test_row (mileage : spec_float) : list cell :=
  [ cell_int 42000; CStr "Maruti"; CStr "Swift"; cell_int 1197;
    CStr "Petrol"; CStr "Manual"; cell_int 4; cell_int 1;
    cell_float mileage ].

Definition test_columns : list string :=
  [ "km_driven"; "brand"; "model"; "engine"; "fuel_type";
    "transmission_type"; "vehicle_age"; "number_of_owners"; "mileage" ].

(** Four evaluation rows, all within one unit of the prediction 15.045. *)
Definition close_test_csv : DataFrame :=
  {| columns := test_columns;
     rows := test_row <$> [ F64.dec 150 1; F64.dec 155 1; F64.dec 142 1;
                            F64.dec 159 1 ] |}.

(** Four evaluation rows, three of them within one unit of 15.045. *)
Definition three_quarters_test_csv : DataFrame :=
  {| columns := test_columns;
     rows := test_row <$> [ F64.dec 150 1; F64.dec 155 1; F64.dec 142 1;
                            F64.dec 180 1 ] |}.

Definition close_env : Env :=
  {| load_artifact := Some sample_artifact;
     test_csv := Some close_test_csv;
     random_choice := first_choice |}.

Definition three_quarters_env : Env :=
  {| load_artifact := Some sample_artifact;
     test_csv := Some three_quarters_test_csv;
     random_choice := first_choice |}.

(** Plain left-to-right versions of the numeric reductions. *)
Definition fsum (l : list spec_float) : spec_float :=
  foldl F64.add (F64.of_Z 0) l.

Definition fmean (l : list spec_float) : spec_float :=
  F64.div (fsum l) (F64.of_Z (Z.of_nat (length l))).

Definition plain_mean_absolute_error (y_true y_pred : list spec_float) : scalar :=
  NpFloat64 (fmean (F64.abs <$> zip_with F64.sub y_true y_pred)).

Definition plain_mean_squared_error (y_true y_pred : list spec_float) : scalar :=
  NpFloat64 (fmean ((fun d => F64.mul d d) <$> zip_with F64.sub y_true y_pred)).

Definition plain_r2_score (y_true y_pred : list spec_float) : scalar :=
  let mean := fmean y_true in
  let ss_res := fsum ((fun d => F64.mul d d) <$> zip_with F64.sub y_true y_pred) in
  let ss_tot := fsum ((fun y => F64.mul (F64.sub y mean) (F64.sub y mean)) <$> y_true) in
  NpFloat64 (F64.sub (F64.of_Z 1) (F64.div ss_res ss_tot)).

(** Readers of a number written as a string of decimal digits. *)
Fixpoint digits_value (acc : Z) (s : string) : option Z :=
  match s with
  | EmptyString => Some acc
  | String c s' =>
      let n := Z.of_N (Text.code c) in
      if (48 <=? n) && (n <=? 57) then digits_value (10 * acc + (n - 48)) s'
      else None
  end.

Definition digits_as_int (s : string) : option Z :=
  match s with
  | EmptyString => None
  | _ => digits_value 0 s
  end.

Definition digits_as_float (s : string) : option spec_float :=
  F64.of_Z <$> digits_as_int s.

Definition car_body (km : json) (fuel : json) (age : json) (owners : json) : json :=
  JObject [ ("Total_km_driven", km);
            ("Brand", JStr "Toyota");
            ("Model", JStr "Corolla");
            ("Engine_cc", JInt 1800);
            ("Fuel_type", fuel);
            ("City", JStr "Mumbai");
            ("Transmission", JStr "Automatic");
            ("Age_of_vehicle", age);
            ("Number_of_owners", owners) ].

Definition corolla_body : json :=
  car_body (JInt 50000) (JStr "Petrol") (JInt 3) (JInt 1).

Definition negative_body : json :=
  car_body (JFloat (F64.dec (-500005) 1)) (JStr "Petrol")
           (JFloat (F64.dec (-35) 1)) (JInt (-1)).

Definition hybrid_body : json :=
  car_body (JInt 50000) (JStr "Hybrid") (JInt 3) (JInt 1).

Definition corolla : CarInput :=
  {| Total_km_driven := F64.of_Z 50000; Brand := "Toyota"; Model := "Corolla";
     Engine_cc := F64.of_Z 1800; Fuel_type := Petrol; City := "Mumbai";
     Transmission := Automatic; Age_of_vehicle := F64.of_Z 3;
     Number_of_owners := 1 |}.

(** The state of a process started on the sample artifact. *)
Definition sample_app : App :=
  default initial (startup plain_mean_absolute_error plain_mean_squared_error
                           plain_r2_score fmean sample_city_map sample_env initial).

Definition narrow_app : App :=
  default initial (startup plain_mean_absolute_error plain_mean_squared_error
                           plain_r2_score fmean sample_city_map narrow_env initial).

Definition close_app : App :=
  default initial (startup plain_mean_absolute_error plain_mean_squared_error
                           plain_r2_score fmean sample_city_map close_env initial).

Definition three_quarters_app : App :=
  default initial (startup plain_mean_absolute_error plain_mean_squared_error
                           plain_r2_score fmean sample_city_map
                           three_quarters_env initial).

Definition manual_gearbox_body : json :=
  JObject [ ("Total_km_driven", JInt 50000);
            ("Brand", JStr "Toyota");
            ("Model", JStr "Corolla");
            ("Engine_cc", JInt 1800);
            ("Fuel_type", JStr "Petrol");
            ("City", JStr "Mumbai");
            ("Transmission", JStr "manual");
            ("Age_of_vehicle", JInt 3);
            ("Number_of_owners", JInt 1) ].

(** An evaluation table without the column of true mileages. *)
Definition unlabelled_test_csv : DataFrame :=
  {| columns := take 8 test_columns;
     rows := take 8 <$> rows close_test_csv |}.

Definition unlabelled_env : Env :=
  {| load_artifact := Some sample_artifact;
     test_csv := Some unlabelled_test_csv;
     random_choice := first_choice |}.

(** The answer to the sample request on the sample process. *)
Definition corolla_result : PredictionResult :=
  {| predicted_mileage := NpFloat64 (F64.dec 1504 2);
     range := [ NpFloat64 (F64.dec 1404 2); NpFloat64 (F64.dec 1605 2) ];
     feature_importance :=
       dict (zip sample_features (default [] (regressor sample_pipeline))) |}.

(** The range as the specification words it: one below and one above the
    reported [predicted_mileage], both rounded to two decimals. *)
Definition claimed_range (predicted_mileage : scalar) : list scalar :=
  [ round (sub_int predicted_mileage 1) 2;
    round (add_int predicted_mileage 1) 2 ].

(** * Properties *)

(** ** Text *)

Lemma lower_char_idem c : Text.lower_char (Text.lower_char c) = Text.lower_char c.
Proof. destruct c as [[] [] [] [] [] [] [] []]; reflexivity. Qed.

Lemma lower_upper_char c : Text.lower_char (Text.upper_char c) = Text.lower_char c.
Proof. destruct c as [[] [] [] [] [] [] [] []]; reflexivity. Qed.

Lemma lower_idem s : Text.lower (Text.lower s) = Text.lower s.
Proof. induction s as [|c s IH]; simpl; [done|]. by rewrite lower_char_idem, IH. Qed.

Lemma lower_title_from b s : Text.lower (Text.title_from b s) = Text.lower s.
Proof.
  revert b. induction s as [|c s IH]; intros b; simpl; [done|].
  rewrite IH. destruct b; by rewrite ?lower_char_idem, ?lower_upper_char.
Qed.

Lemma lower_title s : Text.lower (Text.title s) = Text.lower s.
Proof. apply lower_title_from. Qed.

Lemma normalize_lower s : Text.lower (normalize s) = normalize s.
Proof. apply lower_idem. Qed.

(** Title-casing loses nothing on names that are already lowercase. *)
Lemma title_inj_lower s1 s2 :
  Text.lower s1 = s1 -> Text.lower s2 = s2 -> Text.title s1 = Text.title s2 -> s1 = s2.
Proof.
  intros H1 H2 Ht. rewrite <- H1, <- H2, <- (lower_title s1), <- (lower_title s2).
  by rewrite Ht.
Qed.

(** Surrounding whitespace and letter case do not matter to the
    normalization. *)

Lemma isspace_lower_char c : Text.isspace (Text.lower_char c) = Text.isspace c.
Proof. destruct c as [[] [] [] [] [] [] [] []]; reflexivity. Qed.

Lemma lstrip_lower s : Text.lstrip (Text.lower s) = Text.lower (Text.lstrip s).
Proof.
  induction s as [|c s IH]; simpl; [done|].
  rewrite isspace_lower_char. by destruct (Text.isspace c).
Qed.

Lemma rstrip_lower s : Text.rstrip (Text.lower s) = Text.lower (Text.rstrip s).
Proof.
  induction s as [|c s IH]; simpl; [done|].
  rewrite IH, isspace_lower_char.
  destruct (Text.rstrip s); simpl; [|done]. by destruct (Text.isspace c).
Qed.

Lemma strip_lower s : Text.strip (Text.lower s) = Text.lower (Text.strip s).
Proof. unfold Text.strip. by rewrite lstrip_lower, rstrip_lower. Qed.

Lemma lstrip_all_space ws s :
  Text.all_space ws = true -> Text.lstrip (ws +:+ s) = Text.lstrip s.
Proof.
  induction ws as [|c ws IH]; simpl; [done|].
  intros [-> Hws]%andb_true_iff. by apply IH.
Qed.

Lemma lstrip_only_space ws : Text.all_space ws = true -> Text.lstrip ws = "".
Proof.
  induction ws as [|c ws IH]; simpl; [done|].
  intros [-> Hws]%andb_true_iff. by apply IH.
Qed.

Lemma rstrip_all_space ws : Text.all_space ws = true -> Text.rstrip ws = "".
Proof.
  induction ws as [|c ws IH]; simpl; [done|].
  intros [-> Hws]%andb_true_iff. by rewrite IH.
Qed.

Lemma rstrip_app_all_space s ws :
  Text.all_space ws = true -> Text.rstrip (s +:+ ws) = Text.rstrip s.
Proof.
  intros Hws. induction s as [|c s IH]; simpl.
  - by apply rstrip_all_space.
  - by rewrite IH.
Qed.

Lemma strip_app_all_space s ws :
  Text.all_space ws = true -> Text.strip (s +:+ ws) = Text.strip s.
Proof.
  intros Hws. unfold Text.strip. induction s as [|c s IH]; simpl.
  - by rewrite lstrip_only_space.
  - destruct (Text.isspace c); [done|].
    apply (rstrip_app_all_space (String c s) ws Hws).
Qed.

Lemma strip_padding ws1 s ws2 :
  Text.all_space ws1 = true -> Text.all_space ws2 = true ->
  Text.strip (ws1 +:+ s +:+ ws2) = Text.strip s.
Proof.
  intros H1 H2. unfold Text.strip at 1. rewrite lstrip_all_space by done.
  by apply strip_app_all_space.
Qed.

Lemma normalize_padding_case ws1 ws2 c1 c2 :
  Text.all_space ws1 = true -> Text.all_space ws2 = true ->
  Text.lower c1 = Text.lower c2 ->
  normalize (ws1 +:+ c1 +:+ ws2) = normalize c2.
Proof.
  intros H1 H2 Hcase. unfold normalize.
  by rewrite strip_padding, <- !strip_lower, Hcase.
Qed.

(** ** Construction of the city table *)

Lemma city_map_step_None rows : foldl city_map_step None rows = None.
Proof. induction rows as [|r rows IH]; simpl; [done|]. exact IH. Qed.

Lemma city_map_snoc rows r :
  city_map (rows ++ [r]) = city_map_step (city_map rows) r.
Proof. unfold city_map. by rewrite foldl_app. Qed.





Lemma elem_of_dict_keys {V} (m : gmap string V) k :
  k ∈ dict_keys m <-> is_Some (m !! k).
Proof.
  unfold dict_keys. rewrite list_elem_of_fmap. split.
  - intros [[k' v] [-> Hkv]]. apply elem_of_map_to_list in Hkv. by eexists.
  - intros [v Hv]. exists (k, v). split; [done|]. by apply elem_of_map_to_list.
Qed.

Lemma NoDup_dict_keys {V} (m : gmap string V) : NoDup (dict_keys m).
Proof. apply NoDup_fst_map_to_list. Qed.


(** ** Agreement of [Text] with [PyStr] on ASCII text *)

Definition bytes (s : string) : list Z := PyStr.byte <$> list_ascii_of_string s.

Ltac by_cases_on_char c :=
  destruct c as [[] [] [] [] [] [] [] []]; vm_compute;
  first [reflexivity | congruence | intros; congruence].

Lemma isspace_agree c :
  (Text.code c <? 128)%N = true -> PyStr.isspace (PyStr.byte c) = Text.isspace c.
Proof. by_cases_on_char c. Qed.

Lemma iscased_agree c :
  (Text.code c <? 128)%N = true -> PyStr.iscased (PyStr.byte c) = Text.iscased c.
Proof. by_cases_on_char c. Qed.

Lemma to_lower_agree c :
  (Text.code c <? 128)%N = true ->
  PyStr.to_lower_full (PyStr.byte c) = [PyStr.byte (Text.lower_char c)].
Proof. by_cases_on_char c. Qed.

Lemma to_title_agree c :
  (Text.code c <? 128)%N = true ->
  PyStr.to_title_full (PyStr.byte c) = [PyStr.byte (Text.upper_char c)].
Proof. by_cases_on_char c. Qed.

Lemma not_sigma c :
  (Text.code c <? 128)%N = true -> (PyStr.byte c =? PyStr.capital_sigma) = false.
Proof. by_cases_on_char c. Qed.

Lemma lower_char_ascii c :
  (Text.code c <? 128)%N = true -> (Text.code (Text.lower_char c) <? 128)%N = true.
Proof. by_cases_on_char c. Qed.

Lemma upper_char_ascii c :
  (Text.code c <? 128)%N = true -> (Text.code (Text.upper_char c) <? 128)%N = true.
Proof. by_cases_on_char c. Qed.

Lemma char_byte c : PyStr.char (PyStr.byte c) = c.
Proof. unfold PyStr.char, PyStr.byte. by rewrite N2Z.id, ascii_N_embedding. Qed.

Lemma byte_lt_128 c : (PyStr.byte c <? 128) = (Text.code c <? 128)%N.
Proof. by_cases_on_char c. Qed.

Lemma decode_ascii s : Text.is_ascii s = true -> PyStr.decode s = bytes s.
Proof.
  unfold bytes. induction s as [|c s IH]; [done|].
  intros [Hc Hs]%andb_true_iff. simpl.
  rewrite byte_lt_128, Hc. simpl. by rewrite IH.
Qed.

Lemma encode_ascii s : Text.is_ascii s = true -> PyStr.encode (bytes s) = s.
Proof.
  unfold bytes. induction s as [|c s IH]; [done|].
  intros [Hc Hs]%andb_true_iff. simpl. unfold PyStr.encode_point.
  rewrite byte_lt_128, Hc, char_byte. f_equal. by apply IH.
Qed.

Lemma lstrip_ascii s :
  Text.is_ascii s = true -> Text.is_ascii (Text.lstrip s) = true.
Proof.
  induction s as [|c s IH]; [done|].
  intros Hcs. pose proof Hcs as [Hc Hs]%andb_true_iff. simpl.
  destruct (Text.isspace c); [by apply IH|done].
Qed.

Lemma rstrip_ascii s :
  Text.is_ascii s = true -> Text.is_ascii (Text.rstrip s) = true.
Proof.
  induction s as [|c s IH]; [done|].
  intros [Hc Hs]%andb_true_iff. specialize (IH Hs). simpl.
  destruct (Text.rstrip s) as [|c' t].
  - destruct (Text.isspace c); [done|].
    apply andb_true_iff. by split.
  - apply andb_true_iff. by split.
Qed.

Lemma strip_ascii s :
  Text.is_ascii s = true -> Text.is_ascii (Text.strip s) = true.
Proof. intros Hs. by apply rstrip_ascii, lstrip_ascii. Qed.

Lemma lower_ascii s :
  Text.is_ascii s = true -> Text.is_ascii (Text.lower s) = true.
Proof.
  induction s as [|c s IH]; [done|].
  intros [Hc Hs]%andb_true_iff. simpl. apply andb_true_iff. split.
  - by apply lower_char_ascii.
  - by apply IH.
Qed.

Lemma title_from_ascii b s :
  Text.is_ascii s = true -> Text.is_ascii (Text.title_from b s) = true.
Proof.
  revert b. induction s as [|c s IH]; intros b; [done|].
  intros [Hc Hs]%andb_true_iff. simpl. apply andb_true_iff. split.
  - destruct b; [by apply lower_char_ascii|by apply upper_char_ascii].
  - by apply IH.
Qed.

Lemma lstrip_points_agree s :
  Text.is_ascii s = true ->
  PyStr.lstrip_points (bytes s) = bytes (Text.lstrip s).
Proof.
  unfold bytes. induction s as [|c s IH]; simpl; [done|].
  intros [Hc Hs]%andb_true_iff. rewrite isspace_agree by done.
  destruct (Text.isspace c); [by apply IH|done].
Qed.

Lemma bytes_cons c s : bytes (String c s) = PyStr.byte c :: bytes s.
Proof. reflexivity. Qed.

Lemma rstrip_points_cons c l :
  PyStr.rstrip_points (c :: l) =
    match PyStr.rstrip_points l with
    | [] => if PyStr.isspace c then [] else [c]
    | t => c :: t
    end.
Proof. reflexivity. Qed.

Lemma rstrip_cons c s :
  Text.rstrip (String c s) =
    match Text.rstrip s with
    | EmptyString => if Text.isspace c then EmptyString else String c EmptyString
    | t => String c t
    end.
Proof. reflexivity. Qed.

Lemma rstrip_points_agree s :
  Text.is_ascii s = true ->
  PyStr.rstrip_points (bytes s) = bytes (Text.rstrip s).
Proof.
  induction s as [|c s IH]; [done|].
  intros [Hc Hs]%andb_true_iff.
  rewrite bytes_cons, rstrip_points_cons, rstrip_cons, IH, isspace_agree
    by done.
  destruct (Text.rstrip s) as [|c' t]; [|done].
  by destruct (Text.isspace c).
Qed.

Lemma lower_points_agree ctx s :
  Text.is_ascii s = true ->
  PyStr.lower_points ctx (bytes s) = bytes (Text.lower s).
Proof.
  unfold bytes. revert ctx. induction s as [|c s IH]; intros ctx; simpl; [done|].
  intros [Hc Hs]%andb_true_iff. unfold PyStr.lower_at.
  rewrite not_sigma, to_lower_agree by done. simpl. by rewrite IH.
Qed.

Lemma title_points_agree p ctx s :
  Text.is_ascii s = true ->
  PyStr.title_points p ctx (bytes s) = bytes (Text.title_from p s).
Proof.
  unfold bytes. revert p ctx.
  induction s as [|c s IH]; intros p ctx; simpl; [done|].
  intros [Hc Hs]%andb_true_iff. unfold PyStr.lower_at.
  rewrite not_sigma, to_lower_agree, to_title_agree, iscased_agree by done.
  rewrite IH by done. by destruct p.
Qed.

Lemma strip_agree s : Text.is_ascii s = true -> PyStr.strip s = Text.strip s.
Proof.
  intros Hs. unfold PyStr.strip, PyStr.strip_points, Text.strip.
  rewrite decode_ascii, lstrip_points_agree by done.
  rewrite rstrip_points_agree by (by apply lstrip_ascii).
  by apply encode_ascii, strip_ascii.
Qed.

Lemma lower_agree s : Text.is_ascii s = true -> PyStr.lower s = Text.lower s.
Proof.
  intros Hs. unfold PyStr.lower.
  rewrite decode_ascii, lower_points_agree by done.
  by apply encode_ascii, lower_ascii.
Qed.

Lemma title_agree s : Text.is_ascii s = true -> PyStr.title s = Text.title s.
Proof.
  intros Hs. unfold PyStr.title, Text.title.
  rewrite decode_ascii, title_points_agree by done.
  by apply encode_ascii, title_from_ascii.
Qed.

Lemma normalize_agree s :
  Text.is_ascii s = true -> Full.normalize s = normalize s.
Proof.
  intros Hs. unfold Full.normalize, normalize.
  rewrite strip_agree by done. by apply lower_agree, strip_ascii.
Qed.

(** On an ASCII city name the lookup written with [Text] is the lookup
    written with the full methods. *)
Lemma traffic_score_agree cm city :
  Text.is_ascii city = true ->
  traffic_score_of cm city = Full.traffic_score_of cm city.
Proof.
  intros Hc. unfold traffic_score_of, Full.traffic_score_of.
  by rewrite (strip_agree city), lower_agree by (done || by apply strip_ascii).
Qed.

(** On a source table whose city names are ASCII the two constructions
    give the same table. *)
Lemma city_map_agree city_df :
  Forall (fun r => Text.is_ascii (py_str (CITY r)) = true) city_df ->
  city_map city_df = Full.city_map city_df.
Proof.
  unfold city_map, Full.city_map. generalize (Some (∅ : gmap string Z)).
  induction city_df as [|r rows IH]; intros acc Hall; simpl; [done|].
  apply Forall_cons in Hall as [Hr Hrows]. rewrite IH by done. f_equal.
  unfold city_map_step, Full.city_map_step, row_key, Full.row_key.
  by rewrite normalize_agree.
Qed.

Lemma get_cities_agree cm :
  Forall (fun k => Text.is_ascii k = true) (dict_keys cm) ->
  get_cities cm = Full.get_cities cm.
Proof.
  intros Hall. unfold get_cities, Full.get_cities. f_equal.
  apply Forall_fmap_ext. eapply Forall_impl; [exact Hall|].
  intros k Hk. simpl. symmetry. by apply title_agree.
Qed.

(** ** The city table built with the full methods *)

Lemma full_city_map_snoc rows r :
  Full.city_map (rows ++ [r]) = Full.city_map_step (Full.city_map rows) r.
Proof. unfold Full.city_map. by rewrite foldl_app. Qed.

Lemma full_city_map_step_Some acc r m :
  Full.city_map_step acc r = Some m ->
  exists m0 v, acc = Some m0 /\ py_int (TRAFFIC_SCORE r) = Some v
               /\ m = <[Full.row_key r := v]> m0.
Proof.
  unfold Full.city_map_step. destruct acc as [m0|]; simpl; [|done].
  destruct (py_int (TRAFFIC_SCORE r)) as [v|]; simpl; [|done].
  intros [= <-]. eauto.
Qed.

Lemma full_city_map_dom rows m :
  Full.city_map rows = Some m -> dom m = list_to_set (Full.row_key <$> rows).
Proof.
  revert m. induction rows as [|r rows IH] using rev_ind; intros m Hm.
  - injection Hm as <-. by rewrite dom_empty_L.
  - rewrite full_city_map_snoc in Hm.
    apply full_city_map_step_Some in Hm as (m0 & v & Hm0 & _ & ->).
    rewrite dom_insert_L, (IH _ Hm0), fmap_app, list_to_set_app_L. simpl.
    set_solver.
Qed.

Lemma full_city_map_keys rows m k :
  Full.city_map rows = Some m ->
  k ∈ dict_keys m <-> exists r, r ∈ rows /\ Full.row_key r = k.
Proof.
  intros Hm. rewrite elem_of_dict_keys, <- elem_of_dom, (full_city_map_dom _ _ Hm).
  rewrite elem_of_list_to_set, list_elem_of_fmap. naive_solver.
Qed.

(** ** City lookup *)

Lemma traffic_score_of_normalize cm c1 c2 :
  normalize c1 = normalize c2 -> traffic_score_of cm c1 = traffic_score_of cm c2.
Proof. unfold traffic_score_of, normalize. by intros ->. Qed.

(** X1.  A city written with other letter case and surrounded by
    whitespace resolves to the same score. *)
Lemma city_lookup_insensitive cm ws1 ws2 c1 c2 :
  Text.all_space ws1 = true -> Text.all_space ws2 = true ->
  Text.lower c1 = Text.lower c2 ->
  traffic_score_of cm (ws1 +:+ c1 +:+ ws2) = traffic_score_of cm c2.
Proof.
  intros H1 H2 Hcase. apply traffic_score_of_normalize.
  by apply normalize_padding_case.
Qed.

(** C1.  The lookup of a city trims the name and lowercases it, with
    Python's [strip] and [lower] on any text; when the resulting key is
    in the table the stored score is returned, otherwise the default 50.
    The lookup is a total function, so it cannot fail. *)
Theorem city_lookup_total (cm : gmap string Z) (city : string) :
  (forall v, cm !! PyStr.lower (PyStr.strip city) = Some v ->
             Full.traffic_score_of cm city = v) /\
  (cm !! PyStr.lower (PyStr.strip city) = None ->
   Full.traffic_score_of cm city = 50).
Proof.
  unfold Full.traffic_score_of, dict_get. split.
  - by intros v ->.
  - by intros ->.
Qed.

Lemma city_lookup_total_witness :
  Full.traffic_score_of wide_city_map (nbsp +:+ "Mumbai") = 70 /\
  Full.traffic_score_of wide_city_map "  São Paulo " = 60 /\
  Full.traffic_score_of wide_city_map "SS" = 40 /\
  Full.traffic_score_of wide_city_map "Atlantis" = 50.
Proof.
  split; [|split; [|split]].
  - apply (proj1 (city_lookup_total wide_city_map (nbsp +:+ "Mumbai"))).
    vm_compute. reflexivity.
  - apply (proj1 (city_lookup_total wide_city_map "  São Paulo ")).
    vm_compute. reflexivity.
  - apply (proj1 (city_lookup_total wide_city_map "SS")).
    vm_compute. reflexivity.
  - apply (proj2 (city_lookup_total wide_city_map "Atlantis")).
    vm_compute. reflexivity.
Defined.



(** ** [GET /api/cities] *)

(** C5.  The list of cities is sorted in ascending order, every entry is
    the title-cased form of a key of the table, and there is exactly one
    entry per key: the list is a rearrangement of the title-cased keys,
    the keys are distinct, and they are the normalized city names of the
    source rows. *)
Theorem get_cities_sorted_titles (city_df : list Row) (cm : gmap string Z) :
  Full.city_map city_df = Some cm ->
  StronglySorted String.le (Full.get_cities cm) /\
  Full.get_cities cm ≡ₚ PyStr.title <$> dict_keys cm /\
  NoDup (dict_keys cm) /\
  (forall k, k ∈ dict_keys cm <->
             exists r, r ∈ city_df /\
                       PyStr.lower (PyStr.strip (py_str (CITY r))) = k).
Proof.
  intros Hcm.
  split; [|split; [|split]].
  - apply Sorted_StronglySorted; [apply _|]. apply (Sorted_merge_sort _).
  - apply merge_sort_Permutation.
  - apply NoDup_dict_keys.
  - intros k. by apply full_city_map_keys.
Qed.

Lemma get_cities_sorted_titles_witness :
  Full.get_cities wide_city_map
    = ["Delhi"; "Mumbai"; "Ss"; "Ss"; "São Paulo"] /\
  wide_city_map !! "ß" = Some 30 /\
  wide_city_map !! "ss" = Some 40 /\
  length (dict_keys wide_city_map) = 5%nat /\
  StronglySorted String.le (Full.get_cities wide_city_map) /\
  Full.get_cities wide_city_map ≡ₚ PyStr.title <$> dict_keys wide_city_map.
Proof.
  split; [vm_compute; reflexivity|].
  split; [vm_compute; reflexivity|].
  split; [vm_compute; reflexivity|].
  split; [vm_compute; reflexivity|].
  pose proof (get_cities_sorted_titles wide_city_df wide_city_map) as H.
  destruct H as (Hs & Hp & _); [vm_compute; reflexivity|].
  exact (conj Hs Hp).
Defined.

(** ** Rounding *)

(** On exact numbers, rounding to an integer with ties to even commutes
    with adding an even integer: in exact arithmetic, rounding [p - 1]
    and [p + 1] to hundredths would give the rounded [p] minus and plus
    one.  Binary64 arithmetic does not keep this. *)
Lemma half_even_shift n d k :
  0 < d -> Z.even k = true ->
  F64.half_even (n + k * d) d = F64.half_even n d + k.
Proof.
  intros Hd Hk. unfold F64.half_even.
  rewrite Z.div_add, Z.mod_add by lia.
  rewrite !Z.even_add, Hk.
  destruct (2 * (n mod d) ?= d); [|lia..].
  destruct (Z.even (n / d)); simpl; lia.
Qed.

(** ** [predict] *)

Lemma predict_Some cm app data r :
  fst (predict cm app data) = Some r ->
  exists model p rest d,
    ml_models app !! "model" = Some (OModel model) /\
    predict_ model (input_df cm data) = Some (p :: rest) /\
    ml_models app !! "feature_importance_dict" = Some (OImportance d) /\
    snd (predict cm app data) = [input_df cm data] /\
    r = {| predicted_mileage := round (NpFloat64 p) 2;
           range := [ round (sub_int (NpFloat64 p) 1) 2;
                      round (add_int (NpFloat64 p) 1) 2 ];
           feature_importance := d |}.
Proof.
  unfold predict.
  destruct (ml_models app !! "model") as [[model| |]|] eqn:Hm; try done.
  destruct (predict_ model (input_df cm data)) as [[|p rest]|] eqn:Hp; try done.
  destruct (ml_models app !! "feature_importance_dict") as [[| |d]|] eqn:Hd;
    try done.
  intros [= <-]. by exists model, p, rest, d.
Qed.

(** C2, as the code has it.  The two ends of [range] are computed from
    the unrounded output [p] of the pipeline, each rounded to two
    decimals on its own: [range = [round(p - 1, 2), round(p + 1, 2)]],
    next to [predicted_mileage = round(p, 2)]. *)
Theorem predict_range (cm : gmap string Z) (app : App) (data : CarInput)
    (r : PredictionResult) :
  fst (predict cm app data) = Some r ->
  exists model p rest,
    ml_models app !! "model" = Some (OModel model) /\
    predict_ model (input_df cm data) = Some (p :: rest) /\
    predicted_mileage r = round (NpFloat64 p) 2 /\
    range r = [ round (sub_int (NpFloat64 p) 1) 2;
                round (add_int (NpFloat64 p) 1) 2 ].
Proof.
  intros (model & p & rest & d & Hm & Hp & _ & _ & ->)%predict_Some.
  by exists model, p, rest.
Qed.

Lemma predict_range_witness :
  exists model p rest,
    ml_models sample_app !! "model" = Some (OModel model) /\
    predict_ model (input_df sample_city_map corolla) = Some (p :: rest) /\
    predicted_mileage corolla_result = round (NpFloat64 p) 2 /\
    range corolla_result = [ round (sub_int (NpFloat64 p) 1) 2;
                             round (add_int (NpFloat64 p) 1) 2 ].
Proof.
  apply (predict_range sample_city_map sample_app corolla corolla_result).
  vm_compute. reflexivity.
Defined.

(** For a pipeline output of 15.045 the service reports 15.04 with the
    range [14.04, 16.05]: the upper end is not the reported value plus
    one, rounded or not, and the two ends are not 2 apart. *)
Lemma predict_range_counterexample :
  predicted_mileage <$> fst (predict sample_city_map sample_app corolla)
    = Some (NpFloat64 (F64.dec 1504 2)) /\
  range <$> fst (predict sample_city_map sample_app corolla)
    = Some [ NpFloat64 (F64.dec 1404 2); NpFloat64 (F64.dec 1605 2) ] /\
  claimed_range (NpFloat64 (F64.dec 1504 2))
    = [ NpFloat64 (F64.dec 1404 2); NpFloat64 (F64.dec 1604 2) ] /\
  add_int (NpFloat64 (F64.dec 1504 2)) 1 = NpFloat64 (F64.dec 1604 2) /\
  F64.dec 1605 2 <> F64.dec 1604 2 /\
  F64.sub (F64.dec 1605 2) (F64.dec 1404 2) <> F64.of_Z 2.
Proof.
  repeat split; vm_compute; first [reflexivity | congruence].
Qed.

(** The same output rounds the same way when it is a built-in [float]. *)
Lemma builtin_round_agrees_at_15_045 :
  round (PyFloat (F64.dec 15045 3)) 2 = PyFloat (F64.dec 1504 2) /\
  round (sub_int (PyFloat (F64.dec 15045 3)) 1) 2 = PyFloat (F64.dec 1404 2) /\
  round (add_int (PyFloat (F64.dec 15045 3)) 1) 2 = PyFloat (F64.dec 1605 2).
Proof. repeat split; vm_compute; reflexivity. Qed.



(** ** Request validation *)

Lemma validate_FuelType_None v :
  (forall f, v <> JStr (FuelType_value f)) -> validate_FuelType v = None.
Proof.
  intros Hv. destruct v as [| | | |s| |]; try done. simpl.
  repeat case_decide; subst; try done.
  - by destruct (Hv Petrol).
  - by destruct (Hv Diesel).
  - by destruct (Hv CNG).
  - by destruct (Hv Electric).
Qed.

Lemma validate_CarInput_fuel saf sai o :
  members_get o "Fuel_type" ≫= validate_FuelType = None ->
  validate_CarInput saf sai (JObject o) = None.
Proof.
  intros Hfuel. unfold validate_CarInput.
  destruct (members_get o "Total_km_driven" ≫= validate_float saf); [simpl|done].
  destruct (members_get o "Brand" ≫= validate_str); [simpl|done].
  destruct (members_get o "Model" ≫= validate_str); [simpl|done].
  destruct (members_get o "Engine_cc" ≫= validate_float saf); [simpl|done].
  by rewrite Hfuel.
Qed.

Lemma validate_json_of_CarInput saf sai data :
  validate_CarInput saf sai (json_of_CarInput data) = Some data.
Proof. by destruct data as [km b m cc [] c [] age n]. Qed.

Lemma post_predict_invalid saf sai cm app body :
  validate_CarInput saf sai body = None ->
  post_predict saf sai cm app body = (UnprocessableEntity, []).
Proof. unfold post_predict. by intros ->. Qed.

(** C4.  A request whose [Fuel_type] is not one of the four labels is
    answered with a client error and the pipeline is not called. *)
Theorem fuel_type_outside_enum_rejected
    (str_as_float : string -> option spec_float)
    (str_as_int : string -> option Z)
    (cm : gmap string Z) (app : App) (o : list (string * json)) (v : json) :
  members_get o "Fuel_type" = Some v ->
  (forall f, v <> JStr (FuelType_value f)) ->
  is_client_error
    (fst (post_predict str_as_float str_as_int cm app (JObject o))) = true /\
  snd (post_predict str_as_float str_as_int cm app (JObject o)) = [].
Proof.
  intros Hget Hv.
  rewrite post_predict_invalid; [done|].
  apply validate_CarInput_fuel. rewrite Hget. simpl.
  by apply validate_FuelType_None.
Qed.

Lemma fuel_type_outside_enum_rejected_witness :
  is_client_error
    (fst (post_predict digits_as_float digits_as_int sample_city_map
                       sample_app hybrid_body)) = true /\
  snd (post_predict digits_as_float digits_as_int sample_city_map
                    sample_app hybrid_body) = [].
Proof.
  apply (fuel_type_outside_enum_rejected digits_as_float digits_as_int
           sample_city_map sample_app _ (JStr "Hybrid")).
  - vm_compute. reflexivity.
  - intros []; vm_compute; congruence.
Defined.

(** C3, as the code has it.  The body is validated against the declared
    types of [CarInput] before [predict] runs: a body that fails is
    answered 422 without a call to the pipeline, a body that passes is
    handed to [predict].  The fields carry no bound: the JSON form of
    every [CarInput], whatever the sign of its numbers, passes. *)
Theorem validation_at_the_boundary
    (str_as_float : string -> option spec_float)
    (str_as_int : string -> option Z)
    (cm : gmap string Z) (app : App) :
  (forall body,
     validate_CarInput str_as_float str_as_int body = None ->
     post_predict str_as_float str_as_int cm app body
       = (UnprocessableEntity, [])) /\
  (forall body data,
     validate_CarInput str_as_float str_as_int body = Some data ->
     fst (post_predict str_as_float str_as_int cm app body)
       <> UnprocessableEntity /\
     snd (post_predict str_as_float str_as_int cm app body)
       = snd (predict cm app data)) /\
  (forall data,
     validate_CarInput str_as_float str_as_int (json_of_CarInput data)
       = Some data).
Proof.
  split; [|split].
  - intros body. apply post_predict_invalid.
  - intros body data Hv. unfold post_predict. rewrite Hv.
    destruct (predict cm app data) as [[r|] calls]; [|done].
    by destruct (json_compliant r).
  - apply validate_json_of_CarInput.
Qed.

Lemma validation_at_the_boundary_witness :
  post_predict digits_as_float digits_as_int sample_city_map sample_app
               (JObject [("Brand", JInt 7)])
    = (UnprocessableEntity, []) /\
  snd (post_predict digits_as_float digits_as_int sample_city_map sample_app
                    corolla_body)
    = snd (predict sample_city_map sample_app corolla).
Proof.
  pose proof (validation_at_the_boundary digits_as_float digits_as_int
                sample_city_map sample_app) as (Hbad & Hgood & _).
  split.
  - apply Hbad. vm_compute. reflexivity.
  - apply (Hgood corolla_body corolla). vm_compute. reflexivity.
Defined.

(** A body with a negative distance, a negative age and a negative number
    of owners is answered 200, and the pipeline is called on it. *)
Lemma negative_fields_counterexample :
  validate_float digits_as_float (JFloat (F64.dec (-500005) 1))
    = Some (F64.dec (-500005) 1) /\
  F64.ltb (F64.dec (-500005) 1) (F64.of_Z 0) = true /\
  F64.ltb (F64.dec (-35) 1) (F64.of_Z 0) = true /\
  is_client_error
    (fst (post_predict digits_as_float digits_as_int sample_city_map
                       sample_app negative_body)) = false /\
  status_code
    (fst (post_predict digits_as_float digits_as_int sample_city_map
                       sample_app negative_body)) = 200 /\
  snd (post_predict digits_as_float digits_as_int sample_city_map
                    sample_app negative_body)
    = [ {| columns := sample_features;
           rows := [ [ CNum (NFloat (F64.dec (-500005) 1)); CStr "Toyota";
                       CStr "Corolla"; CNum (NFloat (F64.of_Z 1800));
                       CStr "Petrol"; CNum (NInt 70); CStr "Automatic";
                       CNum (NFloat (F64.dec (-35) 1));
                       CNum (NInt (-1)) ] ] |} ].
Proof. repeat split; vm_compute; reflexivity. Qed.

(** ** Startup *)

Lemma dom_dict_update {V} (d : gmap string V) (pairs : list (string * V)) :
  dom (dict_update d pairs) = dom d ∪ list_to_set pairs.*1.
Proof.
  unfold dict_update. revert d.
  induction pairs as [|[k v] pairs IH]; intros d; simpl.
  - set_solver.
  - rewrite IH, dom_insert_L. set_solver.
Qed.

Lemma dom_dict {V} (pairs : list (string * V)) :
  dom (dict pairs) = list_to_set pairs.*1.
Proof.
  change (dict pairs) with (dict_update ∅ pairs).
  rewrite dom_dict_update, dom_empty_L. set_solver.
Qed.

Lemma fst_zip_take {A B} (l : list A) (k : list B) :
  (zip l k).*1 = take (length k) l.
Proof.
  revert k. induction l as [|x l IH]; intros [|y k]; simpl; try done.
  by rewrite IH.
Qed.

Section Startup.

Variable mean_absolute_error : list spec_float -> list spec_float -> scalar.
Variable mean_squared_error : list spec_float -> list spec_float -> scalar.
Variable r2_score : list spec_float -> list spec_float -> scalar.
Variable np_mean : list spec_float -> spec_float.

Local Abbreviation lifespan_startup :=
  (startup mean_absolute_error mean_squared_error r2_score np_mean).
Local Abbreviation metrics_of :=
  (computed_metrics mean_absolute_error mean_squared_error r2_score np_mean).

Lemma startup_Some cm env app0 app :
  lifespan_startup cm env app0 = Some app ->
  exists art imps,
    load_artifact env = Some art /\
    regressor (art_model art) = Some imps /\
    ml_models app =
      <["feature_importance_dict" :=
          OImportance (dict (zip (art_features art) imps))]>
        (<["features" := OFeatures (art_features art)]>
           (<["model" := OModel (art_model art)]> (ml_models app0))) /\
    match test_csv env with
    | Some test_df =>
        exists preds y_test,
          test_predictions cm env (art_model art) (art_features art) test_df
            = Some (preds, y_test) /\
          metrics_data app =
            dict_update (metrics_data app0) (metrics_of preds y_test)
    | None =>
        metrics_data app = dict_update (metrics_data app0) fallback_metrics
    end.
Proof.
  unfold startup.
  destruct (load_artifact env) as [art|] eqn:Ha; [simpl|done].
  destruct (regressor (art_model art)) as [imps|] eqn:Hr; [simpl|done].
  destruct (test_csv env) as [test_df|]; simpl.
  - destruct (test_predictions _ _ _ _ _) as [[preds y_test]|] eqn:Ht;
      simpl; [|done].
    intros [= <-]. exists art, imps. repeat split; try done.
    by exists preds, y_test.
  - intros [= <-]. by exists art, imps.
Qed.

Lemma computed_grade md preds y_test :
  dict_update md (metrics_of preds y_test) !! "Grade"
    = Some (MStr (grade (within_1_km preds y_test))).
Proof. unfold dict_update. simpl. by rewrite lookup_insert_eq. Qed.

(** C8.  Without the evaluation table, a process that loads its artifact
    starts, and its snapshot, which is what [GET /api/metrics] returns,
    is the fixed one: MAE 1.25, RMSE 1.85, R2 0.89, Bias -0.12,
    Within_1_km 82.5, Grade EXCELLENT. *)
Theorem fallback_snapshot (cm : gmap string Z) (env : Env) (art : Artifact)
    (imps : list spec_float) :
  load_artifact env = Some art ->
  regressor (art_model art) = Some imps ->
  test_csv env = None ->
  exists app,
    lifespan_startup cm env initial = Some app /\
    get_metrics app =
      dict [ ("MAE", MNum (F64.dec 125 2));
             ("RMSE", MNum (F64.dec 185 2));
             ("R2", MNum (F64.dec 89 2));
             ("Bias", MNum (F64.dec (-12) 2));
             ("Within_1_km", MNum (F64.dec 825 1));
             ("Grade", MStr "EXCELLENT") ].
Proof.
  intros Ha Hr Ht. unfold startup. rewrite Ha. simpl.
  rewrite Hr, Ht. simpl. by eexists.
Qed.

(** C9, as the code has it.  The mapping is built once, at startup, by
    pairing the declared feature names with the regressor's importances;
    every answer of [predict] carries that mapping.  Its keys are the
    declared names that got an importance: the first names, as many as
    there are importances, and all of them when the regressor reports at
    least one importance per name. *)
Theorem feature_importance_keys (cm : gmap string Z) (env : Env)
    (app0 app : App) :
  lifespan_startup cm env app0 = Some app ->
  exists art imps d,
    load_artifact env = Some art /\
    regressor (art_model art) = Some imps /\
    ml_models app !! "feature_importance_dict" = Some (OImportance d) /\
    dom d = list_to_set (take (length imps) (art_features art)) /\
    ((length (art_features art) <= length imps)%nat ->
     dom d = list_to_set (art_features art)) /\
    (forall data r,
       fst (predict cm app data) = Some r -> feature_importance r = d).
Proof.
  intros (art & imps & Ha & Hr & Hml & _)%startup_Some.
  exists art, imps, (dict (zip (art_features art) imps)).
  assert (Hd : ml_models app !! "feature_importance_dict"
               = Some (OImportance (dict (zip (art_features art) imps))))
    by (by rewrite Hml, lookup_insert_eq).
  assert (Hdom : dom (dict (zip (art_features art) imps))
                 = list_to_set (take (length imps) (art_features art)))
    by (by rewrite dom_dict, fst_zip_take).
  repeat split; try done.
  - intros Hlen. by rewrite Hdom, take_ge.
  - intros data r (model & p & rest & d & _ & _ & Hd' & _ & ->)%predict_Some.
    simpl. congruence.
Qed.

End Startup.

(** All four sample rows are within one unit: 100 percent, EXCELLENT. *)
Example close_grade :
  metrics_data close_app !! "Grade" = Some (MStr "EXCELLENT") /\
  metrics_data close_app !! "Within_1_km" = Some (MNum (F64.of_Z 100)).
Proof. split; vm_compute; reflexivity. Qed.

(** Three rows out of four: the percentage is 75, which does not exceed
    75, and the grade is GOOD. *)
Example three_quarters_grade :
  metrics_data three_quarters_app !! "Grade" = Some (MStr "GOOD") /\
  metrics_data three_quarters_app !! "Within_1_km" = Some (MNum (F64.of_Z 75)).
Proof. split; vm_compute; reflexivity. Qed.

Lemma fallback_snapshot_witness :
  exists app,
    startup plain_mean_absolute_error plain_mean_squared_error plain_r2_score
            fmean sample_city_map sample_env initial = Some app /\
    get_metrics app =
      dict [ ("MAE", MNum (F64.dec 125 2));
             ("RMSE", MNum (F64.dec 185 2));
             ("R2", MNum (F64.dec 89 2));
             ("Bias", MNum (F64.dec (-12) 2));
             ("Within_1_km", MNum (F64.dec 825 1));
             ("Grade", MStr "EXCELLENT") ].
Proof.
  apply (fallback_snapshot plain_mean_absolute_error plain_mean_squared_error
           plain_r2_score fmean sample_city_map sample_env sample_artifact
           (default [] (regressor sample_pipeline))); reflexivity.
Defined.

(** The literals of the snapshot, as binary64 values. *)
Example fallback_literals :
  F64.dec 125 2 = S754_finite false 5629499534213120 (-52) /\
  F64.dec 185 2 = S754_finite false 8331659310635418 (-52) /\
  F64.dec 89 2 = S754_finite false 8016407336719483 (-53) /\
  F64.dec (-12) 2 = S754_finite true 8646911284551352 (-56) /\
  F64.dec 825 1 = S754_finite false 5805421394657280 (-46).
Proof. repeat split; vm_compute; reflexivity. Qed.

Lemma feature_importance_keys_witness :
  exists art imps d,
    load_artifact sample_env = Some art /\
    regressor (art_model art) = Some imps /\
    ml_models sample_app !! "feature_importance_dict" = Some (OImportance d) /\
    dom d = list_to_set (take (length imps) (art_features art)) /\
    ((length (art_features art) <= length imps)%nat ->
     dom d = list_to_set (art_features art)) /\
    (forall data r,
       fst (predict sample_city_map sample_app data) = Some r ->
       feature_importance r = d).
Proof.
  apply (feature_importance_keys plain_mean_absolute_error
           plain_mean_squared_error plain_r2_score fmean sample_city_map
           sample_env initial sample_app).
  vm_compute. reflexivity.
Defined.

(** An artifact that declares nine feature names around a regressor with
    three importances: the process starts, the request is answered, and
    the mapping in the answer has three keys; the declared name
    [Engine_cc] is not one of them. *)
Lemma feature_importance_keys_counterexample :
  startup plain_mean_absolute_error plain_mean_squared_error plain_r2_score
          fmean sample_city_map narrow_env initial = Some narrow_app /\
  art_features narrow_artifact = sample_features /\
  "Engine_cc" ∈ sample_features /\
  (fun r => dom (feature_importance r))
    <$> fst (predict sample_city_map narrow_app corolla)
    = Some ({[ "Total_km_driven"; "Brand"; "Model" ]} : gset string) /\
  (fun r => feature_importance r !! "Engine_cc")
    <$> fst (predict sample_city_map narrow_app corolla) = Some None.
Proof.
  split; [vm_compute; reflexivity|].
  split; [reflexivity|].
  split; [unfold sample_features; set_solver|].
  split; vm_compute; reflexivity.
Qed.

(** * Further properties *)

(** ** Normalization of city names *)














(** ** The city table and the two routes that read it *)

Lemma city_lookup_insensitive_witness :
  traffic_score_of sample_city_map (" " +:+ "MUMBAI" +:+ "  ")
  = traffic_score_of sample_city_map "Mumbai".
Proof.
  apply (city_lookup_insensitive sample_city_map " " "  " "MUMBAI" "Mumbai");
    reflexivity.
Defined.





(** X4.  A city that no source row normalizes to, under Python's
    [strip] and [lower], resolves to the default score 50, whatever the
    table holds. *)
Theorem unknown_city_default (city_df : list Row) (cm : gmap string Z)
    (city : string) :
  Full.city_map city_df = Some cm ->
  Forall (fun r => PyStr.lower (PyStr.strip (py_str (CITY r)))
                   <> PyStr.lower (PyStr.strip city)) city_df ->
  Full.traffic_score_of cm city = 50.
Proof.
  intros Hcm Hnone. unfold Full.traffic_score_of, dict_get.
  destruct (cm !! PyStr.lower (PyStr.strip city)) as [v|] eqn:Hv; [|done].
  assert (Hin : PyStr.lower (PyStr.strip city) ∈ dict_keys cm)
    by (apply elem_of_dict_keys; by eexists).
  apply (full_city_map_keys _ _ _ Hcm) in Hin as (r & Hr & Hkey).
  rewrite Forall_forall in Hnone. by destruct (Hnone r Hr).
Qed.

Lemma unknown_city_default_witness :
  Full.traffic_score_of wide_city_map "Atlantis" = 50.
Proof.
  apply (unknown_city_default wide_city_df wide_city_map "Atlantis").
  - vm_compute. reflexivity.
  - repeat constructor; vm_compute; congruence.
Defined.



(** X6.  Building the table fails exactly when some row carries a score
    that [int] refuses (NaN or an infinity); one such row anywhere in the
    source is enough. *)
Theorem city_map_fails_iff (city_df : list Row) :
  city_map city_df = None <->
  Exists (fun r => py_int (TRAFFIC_SCORE r) = None) city_df.
Proof.
  induction city_df as [|r rows IH] using rev_ind.
  - split; [done|]. by intros ?%Exists_nil.
  - rewrite city_map_snoc, Exists_app, <- IH, Exists_cons, Exists_nil.
    unfold city_map_step.
    destruct (city_map rows) as [m|]; simpl; [|naive_solver].
    destruct (py_int (TRAFFIC_SCORE r)); simpl; naive_solver.
Qed.



(** ** The boundary of [POST /api/predict] *)

Ltac skip_binds :=
  repeat (simpl; try done;
          match goal with
          | |- mbind _ ?m = None => destruct m
          end).

(** X8.  Every field of [CarInput] is required: a body that lacks one of
    the nine is answered 422 and the pipeline is not called. *)
Theorem missing_field_rejected
    (str_as_float : string -> option spec_float)
    (str_as_int : string -> option Z)
    (cm : gmap string Z) (app : App) (o : list (string * json))
    (field : string) :
  field ∈ CarInput_fields ->
  members_get o field = None ->
  post_predict str_as_float str_as_int cm app (JObject o)
    = (UnprocessableEntity, []).
Proof.
  intros Hfield Hget. apply post_predict_invalid.
  unfold CarInput_fields in Hfield.
  repeat (apply elem_of_cons in Hfield as [->|Hfield]);
    [..|by apply elem_of_nil in Hfield];
    unfold validate_CarInput; rewrite Hget; skip_binds.
Qed.

Lemma missing_field_rejected_witness :
  post_predict digits_as_float digits_as_int sample_city_map sample_app
               (JObject [("Brand", JStr "Toyota"); ("City", JStr "Pune")])
    = (UnprocessableEntity, []).
Proof.
  apply (missing_field_rejected digits_as_float digits_as_int sample_city_map
           sample_app _ "Fuel_type").
  - unfold CarInput_fields. set_solver.
  - reflexivity.
Defined.

Lemma validate_TransmissionType_None v :
  (forall t, v <> JStr (TransmissionType_value t)) ->
  validate_TransmissionType v = None.
Proof.
  intros Hv. destruct v as [| | | |s| |]; try done. simpl.
  repeat case_decide; subst; try done.
  - by destruct (Hv Manual).
  - by destruct (Hv Automatic).
Qed.

(** X9.  A request whose [Transmission] is not one of the two labels
    Manual and Automatic, spelled exactly so, is answered with a client
    error and the pipeline is not called. *)
Theorem transmission_outside_enum_rejected
    (str_as_float : string -> option spec_float)
    (str_as_int : string -> option Z)
    (cm : gmap string Z) (app : App) (o : list (string * json)) (v : json) :
  members_get o "Transmission" = Some v ->
  (forall t, v <> JStr (TransmissionType_value t)) ->
  is_client_error
    (fst (post_predict str_as_float str_as_int cm app (JObject o))) = true /\
  snd (post_predict str_as_float str_as_int cm app (JObject o)) = [].
Proof.
  intros Hget Hv.
  rewrite post_predict_invalid; [done|].
  unfold validate_CarInput. rewrite Hget. simpl.
  rewrite (validate_TransmissionType_None v Hv). skip_binds.
Qed.

Lemma transmission_outside_enum_rejected_witness :
  is_client_error
    (fst (post_predict digits_as_float digits_as_int sample_city_map
                       sample_app manual_gearbox_body)) = true /\
  snd (post_predict digits_as_float digits_as_int sample_city_map
                    sample_app manual_gearbox_body) = [].
Proof.
  apply (transmission_outside_enum_rejected digits_as_float digits_as_int
           sample_city_map sample_app _ (JStr "manual")).
  - reflexivity.
  - intros []; vm_compute; congruence.
Defined.


(** X11.  A process that has shut down answers every valid body with a
    500, calling no pipeline, and its metrics dictionary is empty: the
    teardown removes the model and the snapshot. *)
Theorem stopped_process
    (str_as_float : string -> option spec_float)
    (str_as_int : string -> option Z)
    (cm : gmap string Z) (app : App) (body : json) (data : CarInput) :
  validate_CarInput str_as_float str_as_int body = Some data ->
  post_predict str_as_float str_as_int cm (shutdown app) body
    = (InternalServerError, []) /\
  get_metrics (shutdown app) = ∅.
Proof.
  intros Hv. split; [|done]. unfold post_predict. by rewrite Hv.
Qed.

Lemma stopped_process_witness :
  post_predict digits_as_float digits_as_int sample_city_map
               (shutdown sample_app) corolla_body
    = (InternalServerError, []) /\
  get_metrics (shutdown sample_app) = ∅.
Proof.
  apply (stopped_process digits_as_float digits_as_int sample_city_map
           sample_app corolla_body corolla).
  vm_compute. reflexivity.
Defined.

(** ** Frames *)

Lemma index_of_None c cols : index_of c cols = None <-> c ∉ cols.
Proof.
  induction cols as [|c' cols IH]; simpl.
  - split; [intros _; apply not_elem_of_nil|done].
  - rewrite not_elem_of_cons. case_decide as Hc.
    + split; [done|]. intros [Hne _]. by destruct Hne.
    + destruct (index_of c cols); simpl; naive_solver.
Qed.

Lemma assign_Some c values df df' :
  assign c values df = Some df' ->
  length (rows df') = length (rows df) /\
  (columns df' = columns df \/ columns df' = columns df ++ [c]).
Proof.
  unfold assign. case_decide as Hlen; [|done].
  destruct (index_of c (columns df)); intros [= <-]; simpl;
    rewrite length_zip_with; split; (lia || auto).
Qed.

Lemma select_Some names df X :
  select names df = Some X ->
  columns X = names /\
  length (rows X) = length (rows df) /\
  Forall (fun r => length r = length names) (rows X).
Proof.
  unfold select.
  destruct (mapM _ names) as [idx|] eqn:Hidx; simpl; [|done].
  destruct (mapM _ (rows df)) as [rs|] eqn:Hrs; simpl; [|done].
  intros [= <-]. simpl. split; [done|]. split.
  - symmetry. by eapply length_mapM.
  - apply mapM_Some in Hrs. apply length_mapM in Hidx.
    induction Hrs as [|r r' rs rs' Hr _ IH]; constructor; [|done].
    apply length_mapM in Hr. congruence.
Qed.

Lemma column_Some c df cells :
  column c df = Some cells -> length cells = length (rows df).
Proof.
  unfold column. destruct (index_of c (columns df)) as [i|]; simpl; [|done].
  intros Hm. symmetry. by eapply length_mapM.
Qed.

Lemma renamed_mileage c :
  default c (assoc renames c) = "Real_world_mileage" ->
  c = "mileage" \/ c = "Real_world_mileage".
Proof.
  unfold renames. simpl. repeat case_decide; simpl; intros Heq; auto;
    discriminate Heq.
Qed.

Lemma test_predictions_Some cm env model names test_df preds y_test :
  test_predictions cm env model names test_df = Some (preds, y_test) ->
  exists scores df1 X_test y_cells,
    random_choice env (dict_values cm) (length (rows test_df)) = Some scores /\
    assign "City_traffic_score" (cell_int <$> scores) (rename renames test_df)
      = Some df1 /\
    select names df1 = Some X_test /\
    column "Real_world_mileage" df1 = Some y_cells /\
    predict_ model X_test = Some preds /\
    mapM to_float y_cells = Some y_test /\
    length preds = length y_test.
Proof.
  unfold test_predictions. simpl.
  destruct (random_choice env _ _) as [scores|] eqn:Hs; simpl; [|done].
  destruct (assign _ _ _) as [df1|] eqn:Ha; simpl; [|done].
  destruct (select names df1) as [X|] eqn:HX; simpl; [|done].
  destruct (column _ df1) as [y_cells|] eqn:Hy; simpl; [|done].
  destruct (predict_ model X) as [ps|] eqn:Hp; simpl; [|done].
  destruct (mapM to_float y_cells) as [ys|] eqn:Hf; simpl; [|done].
  case_decide as Hlen; [|done]. intros [= <- <-].
  by exists scores, df1, X, y_cells.
Qed.

Lemma test_predictions_shape cm env model feature_names test_df preds y_test :
  test_predictions cm env model feature_names test_df = Some (preds, y_test) ->
  exists X_test,
    predict_ model X_test = Some preds /\
    columns X_test = feature_names /\
    length (rows X_test) = length (rows test_df) /\
    Forall (fun r => length r = length feature_names) (rows X_test) /\
    length preds = length (rows test_df) /\
    length y_test = length (rows test_df).
Proof.
  intros (scores & df1 & X & y_cells & _ & Ha & HX & Hy & Hp & Hf & Hlen)
    %test_predictions_Some.
  apply assign_Some in Ha as [Hrows _]. simpl in Hrows.
  apply select_Some in HX as (Hcols & HXrows & Hfull).
  apply column_Some in Hy. apply length_mapM in Hf.
  exists X. repeat split; try done; congruence.
Qed.

(** X12.  The evaluation runs the pipeline on a frame whose columns are
    the declared feature names, in the declared order, with one full row
    per row of [test.csv]; it compares as many predictions with as many
    true values as [test.csv] has rows. *)
Theorem evaluation_frame (cm : gmap string Z) (env : Env) (model : Pipeline)
    (feature_names : list string) (test_df : DataFrame)
    (preds y_test : list spec_float) :
  test_predictions cm env model feature_names test_df = Some (preds, y_test) ->
  exists X_test,
    predict_ model X_test = Some preds /\
    columns X_test = feature_names /\
    length (rows X_test) = length (rows test_df) /\
    Forall (fun r => length r = length feature_names) (rows X_test) /\
    length preds = length (rows test_df) /\
    length y_test = length (rows test_df).
Proof. apply test_predictions_shape. Qed.

Lemma evaluation_frame_witness :
  exists X_test,
    predict_ sample_pipeline X_test
      = Some (replicate 4 (F64.dec 15045 3)) /\
    columns X_test = sample_features /\
    length (rows X_test) = length (rows close_test_csv) /\
    Forall (fun r => length r = length sample_features) (rows X_test) /\
    length (replicate 4 (F64.dec 15045 3)) = length (rows close_test_csv) /\
    length [ F64.dec 150 1; F64.dec 155 1; F64.dec 142 1; F64.dec 159 1 ]
      = length (rows close_test_csv).
Proof.
  apply (evaluation_frame sample_city_map close_env sample_pipeline
           sample_features close_test_csv).
  vm_compute. reflexivity.
Defined.

(** ** Startup, continued *)

Lemma dict_snoc {V} (pairs : list (string * V)) k v :
  dict (pairs ++ [(k, v)]) = <[k := v]> (dict pairs).
Proof. unfold dict. by rewrite foldl_app. Qed.

Lemma dict_lookup_NoDup {V} (pairs : list (string * V)) k v :
  NoDup pairs.*1 -> (k, v) ∈ pairs -> dict pairs !! k = Some v.
Proof.
  induction pairs as [|[k' v'] pairs IH] using rev_ind; intros Hnd Hin.
  - by apply elem_of_nil in Hin.
  - rewrite dict_snoc. rewrite fmap_app in Hnd.
    apply NoDup_app in Hnd as (Hnd & Hfresh & _).
    apply elem_of_app in Hin as [Hin|Hin].
    + assert (k <> k').
      { intros ->. apply (Hfresh k'); [|set_solver].
        apply list_elem_of_fmap. by exists (k', v). }
      rewrite lookup_insert_ne by done. by apply IH.
    + apply list_elem_of_singleton in Hin as [= -> ->].
      by rewrite lookup_insert_eq.
Qed.

Section Evaluation.

Variable mean_absolute_error : list spec_float -> list spec_float -> scalar.
Variable mean_squared_error : list spec_float -> list spec_float -> scalar.
Variable r2_score : list spec_float -> list spec_float -> scalar.
Variable np_mean : list spec_float -> spec_float.

Local Abbreviation lifespan_startup :=
  (startup mean_absolute_error mean_squared_error r2_score np_mean).
Local Abbreviation metrics_of :=
  (computed_metrics mean_absolute_error mean_squared_error r2_score np_mean).

Lemma count_true_cons b flags :
  count_true (b :: flags) = (if b then 1 else 0) + count_true flags.
Proof.
  unfold count_true. destruct b.
  - rewrite filter_cons_True by done. simpl length. lia.
  - rewrite filter_cons_False by done. lia.
Qed.

Lemma count_true_within preds y_test :
  count_true ((fun d => F64.leb (F64.abs d) (F64.of_Z 1))
                <$> zip_with F64.sub preds y_test)
  = count_within_one preds y_test.
Proof.
  revert y_test.
  induction preds as [|p preds IH]; intros [|t y_test]; try done.
  cbn [zip_with fmap list_fmap count_within_one].
  by rewrite count_true_cons, IH.
Qed.

Lemma within_1_km_percentage preds y_test :
  length preds = length y_test ->
  within_1_km preds y_test = percentage_within_one preds y_test.
Proof.
  intros Hlen. unfold within_1_km, mean_bool, percentage_within_one.
  by rewrite count_true_within, length_fmap, length_zip_with, Hlen,
    Nat.min_id.
Qed.

(** C7.  With the evaluation table present, the grade in the snapshot is
    EXCELLENT exactly when the percentage of predictions within one unit
    of the truth, as computed in binary64 from the count of such
    predictions, is greater than 75, and GOOD exactly when it is not. *)
Theorem grade_exceeds_75 (cm : gmap string Z) (env : Env) (app0 app : App)
    (art : Artifact) (test_df : DataFrame) (preds y_test : list spec_float) :
  load_artifact env = Some art ->
  test_csv env = Some test_df ->
  test_predictions cm env (art_model art) (art_features art) test_df
    = Some (preds, y_test) ->
  lifespan_startup cm env app0 = Some app ->
  (metrics_data app !! "Grade" = Some (MStr "EXCELLENT") <->
   F64.ltb (F64.of_Z 75) (percentage_within_one preds y_test) = true) /\
  (metrics_data app !! "Grade" = Some (MStr "GOOD") <->
   F64.ltb (F64.of_Z 75) (percentage_within_one preds y_test) = false).
Proof.
  intros Ha Htest Hp (art' & imps & Ha' & _ & _ & Hmd)%startup_Some.
  assert (art' = art) as -> by congruence.
  rewrite Htest in Hmd. destruct Hmd as (preds' & y_test' & Hp' & ->).
  assert (preds' = preds /\ y_test' = y_test) as [-> ->]
    by (split; congruence).
  apply test_predictions_Some in Hp
    as (_ & _ & _ & _ & _ & _ & _ & _ & _ & _ & Hlen).
  rewrite computed_grade, (within_1_km_percentage _ _ Hlen). unfold grade.
  destruct (F64.ltb (F64.of_Z 75) (percentage_within_one preds y_test));
    split; split; congruence.
Qed.

Lemma startup_None_evaluation cm env app0 art test_df :
  load_artifact env = Some art ->
  test_csv env = Some test_df ->
  test_predictions cm env (art_model art) (art_features art) test_df = None ->
  lifespan_startup cm env app0 = None.
Proof.
  intros Ha Htest Hp. unfold startup. rewrite Ha. simpl.
  destruct (regressor (art_model art)); simpl; [|done].
  rewrite Htest. simpl. by rewrite Hp.
Qed.

(** X13.  Without [test.csv] the startup fails in exactly two cases: the
    artifact does not load, or the loaded pipeline has no regressor step
    with importances. *)
Theorem startup_fails_iff (cm : gmap string Z) (env : Env) (app0 : App) :
  test_csv env = None ->
  lifespan_startup cm env app0 = None <->
  load_artifact env = None \/
  exists art,
    load_artifact env = Some art /\ regressor (art_model art) = None.
Proof.
  intros Htest. unfold startup. rewrite Htest.
  destruct (load_artifact env) as [art|]; simpl; [|naive_solver].
  destruct (regressor (art_model art)) as [imps|] eqn:Hr; simpl.
  - split; [done|]. intros [|(art' & [= <-] & ?)]; congruence.
  - split; [|done]. intros _. right. by exists art.
Qed.

(** X14.  A successful startup writes exactly six entries into the
    metrics dictionary, in either branch: MAE, RMSE, R2, Bias,
    Within_1_km and Grade are added to whatever it held before. *)
Theorem snapshot_keys (cm : gmap string Z) (env : Env) (app0 app : App) :
  lifespan_startup cm env app0 = Some app ->
  dom (metrics_data app) =
    dom (metrics_data app0)
    ∪ {[ "MAE"; "RMSE"; "R2"; "Bias"; "Within_1_km"; "Grade" ]}.
Proof.
  intros (art & imps & _ & _ & _ & Hmd)%startup_Some.
  destruct (test_csv env) as [test_df|].
  - destruct Hmd as (preds & y_test & _ & ->).
    rewrite dom_dict_update. simpl. set_solver.
  - rewrite Hmd, dom_dict_update. simpl. set_solver.
Qed.

(** X15.  With [test.csv] present, a column the evaluation reads must be
    in the table after renaming: when a declared feature name other than
    City_traffic_score, or Real_world_mileage, is not among the renamed
    columns, the startup fails. *)
Theorem evaluation_missing_column (cm : gmap string Z) (env : Env)
    (app0 : App) (art : Artifact) (test_df : DataFrame) (c : string) :
  load_artifact env = Some art ->
  test_csv env = Some test_df ->
  c ∈ art_features art \/ c = "Real_world_mileage" ->
  c <> "City_traffic_score" ->
  c ∉ columns (rename renames test_df) ->
  lifespan_startup cm env app0 = None.
Proof.
  intros Ha Htest Hc Hne Hmiss.
  apply (startup_None_evaluation _ _ _ art test_df); [done..|].
  destruct (test_predictions _ _ _ _ _) as [[preds y_test]|] eqn:Ht; [|done].
  apply test_predictions_Some in Ht
    as (scores & df1 & X & y_cells & _ & Hassign & HX & Hy & _).
  assert (Hcols : c ∉ columns df1).
  { apply assign_Some in Hassign as [_ [->| ->]]; [done|].
    rewrite elem_of_app, list_elem_of_singleton. naive_solver. }
  apply index_of_None in Hcols. destruct Hc as [Hc| ->].
  - unfold select in HX.
    rewrite (mapM_None_2 (fun c => index_of c (columns df1)) (art_features art))
      in HX; [done|].
    apply Exists_exists. by exists c.
  - unfold column in Hy. by rewrite Hcols in Hy.
Qed.

(** X16.  When the declared feature names are distinct, the mapping built
    at startup gives each name the importance at the same position in the
    regressor's array. *)
Theorem importance_by_position (cm : gmap string Z) (env : Env)
    (app0 app : App) (art : Artifact) (imps : list spec_float)
    (i : nat) (name : string) (w : spec_float) :
  load_artifact env = Some art ->
  regressor (art_model art) = Some imps ->
  lifespan_startup cm env app0 = Some app ->
  NoDup (art_features art) ->
  art_features art !! i = Some name ->
  imps !! i = Some w ->
  exists d,
    ml_models app !! "feature_importance_dict" = Some (OImportance d) /\
    d !! name = Some w.
Proof.
  intros Ha Hr (art' & imps' & Ha' & Hr' & Hml & _)%startup_Some
         Hnd Hname Hw.
  assert (art' = art) as -> by congruence.
  assert (imps' = imps) as -> by congruence.
  exists (dict (zip (art_features art) imps)). split.
  - by rewrite Hml, lookup_insert_eq.
  - apply dict_lookup_NoDup.
    + rewrite fst_zip_take. eapply sublist_NoDup; [done|apply sublist_take].
    + apply list_elem_of_lookup. exists i.
      apply lookup_zip_with_Some. by exists name, w.
Qed.


End Evaluation.

Lemma grade_exceeds_75_witness :
  percentage_within_one
    (replicate 4 (F64.dec 15045 3))
    [ F64.dec 150 1; F64.dec 155 1; F64.dec 142 1; F64.dec 159 1 ]
    = F64.of_Z 100 /\
  metrics_data close_app !! "Grade" = Some (MStr "EXCELLENT") /\
  percentage_within_one
    (replicate 4 (F64.dec 15045 3))
    [ F64.dec 150 1; F64.dec 155 1; F64.dec 142 1; F64.dec 180 1 ]
    = F64.of_Z 75 /\
  metrics_data three_quarters_app !! "Grade" = Some (MStr "GOOD").
Proof.
  split; [vm_compute; reflexivity|]. split.
  { apply (grade_exceeds_75 plain_mean_absolute_error
             plain_mean_squared_error plain_r2_score fmean sample_city_map
             close_env initial close_app sample_artifact close_test_csv
             (replicate 4 (F64.dec 15045 3))
             [ F64.dec 150 1; F64.dec 155 1; F64.dec 142 1; F64.dec 159 1 ]);
      vm_compute; reflexivity. }
  split; [vm_compute; reflexivity|].
  apply (grade_exceeds_75 plain_mean_absolute_error
           plain_mean_squared_error plain_r2_score fmean sample_city_map
           three_quarters_env initial three_quarters_app sample_artifact
           three_quarters_test_csv
           (replicate 4 (F64.dec 15045 3))
           [ F64.dec 150 1; F64.dec 155 1; F64.dec 142 1; F64.dec 180 1 ]);
    vm_compute; reflexivity.
Defined.

Lemma startup_fails_iff_witness :
  startup plain_mean_absolute_error plain_mean_squared_error plain_r2_score
          fmean sample_city_map
          {| load_artifact := None; test_csv := None;
             random_choice := first_choice |} initial = None.
Proof.
  apply (startup_fails_iff plain_mean_absolute_error plain_mean_squared_error
           plain_r2_score fmean); [reflexivity|].
  by left.
Defined.

Lemma snapshot_keys_witness :
  dom (metrics_data sample_app) =
    dom (metrics_data initial)
    ∪ {[ "MAE"; "RMSE"; "R2"; "Bias"; "Within_1_km"; "Grade" ]}.
Proof.
  apply (snapshot_keys plain_mean_absolute_error plain_mean_squared_error
           plain_r2_score fmean sample_city_map sample_env initial sample_app).
  vm_compute. reflexivity.
Defined.

Lemma evaluation_missing_column_witness :
  startup plain_mean_absolute_error plain_mean_squared_error plain_r2_score
          fmean sample_city_map unlabelled_env initial = None.
Proof.
  apply (evaluation_missing_column plain_mean_absolute_error
           plain_mean_squared_error plain_r2_score fmean sample_city_map
           unlabelled_env initial sample_artifact unlabelled_test_csv
           "Real_world_mileage").
  - reflexivity.
  - reflexivity.
  - by right.
  - discriminate.
  - vm_compute. intros H.
    repeat (apply elem_of_cons in H as [H|H]; [discriminate H|]).
    by apply elem_of_nil in H.
Defined.

Lemma importance_by_position_witness :
  exists d,
    ml_models sample_app !! "feature_importance_dict" = Some (OImportance d) /\
    d !! "Engine_cc" = Some (F64.dec 25 2).
Proof.
  apply (importance_by_position plain_mean_absolute_error
           plain_mean_squared_error plain_r2_score fmean sample_city_map
           sample_env initial sample_app sample_artifact
           (default [] (regressor sample_pipeline)) 3%nat).
  - reflexivity.
  - reflexivity.
  - vm_compute. reflexivity.
  - apply (bool_decide_eq_true_1 (NoDup sample_features)).
    vm_compute. reflexivity.
  - reflexivity.
  - reflexivity.
Defined.

